(** * Observability-and-Monitoring-Go: the order service and its telemetry

    A shallow embedding of the three Go programs of the repository

    - [4_exposing_http_request_metric/golang-app/main.go]
      (module [ExposingHttpRequestMetric]),
    - the variant that adds the gauge simulation job (module [GaugeJob]),
    - the full variant with tracing, structured logging, summary and
      histogram, and graceful shutdown (module [Tracing]),

    over one world of observable effects: a clock, the Prometheus
    instruments, the response writer of the request being served and a
    time-stamped trace of everything else (log lines, spans, outbound
    calls, process-level steps). *)

From Stdlib Require Import ZArith Lia Bool Ascii String.
From stdpp Require Import base option list gmap strings pretty.

Local Open Scope string_scope.
Local Open Scope Z_scope.

(** ** Time *)

(** [time.Duration] is a count of nanoseconds; the clock is read in the
    same unit. *)
Definition Duration := Z.
Definition Millisecond : Duration := 1000000.
Definition Second : Duration := 1000 * Millisecond.

(** ** Observable events *)

Inductive Level := LevelDebug | LevelInfo | LevelWarn | LevelError.

(** Where a line ends up: the process's standard error (the builtin
    [println]; packages [log] and [slog] until [slog.SetDefault] has run)
    or the Logstash connection (the logger [main] builds on it and, once
    [slog.SetDefault] has run, packages [slog] and [log] as well). *)
Inductive Sink := Stderr | Logstash.

Inductive Event :=
| EvLog (sink : Sink) (lvl : Level) (msg : string)
        (attrs : list (string * string))
| EvSleep (d : Duration)
| EvSpanStart (name : string) (parent : option string)
| EvSpanFinish (name : string)
| EvInject (span : string)
| EvHTTPDo (method url : string)
| EvBodyClose
| EvCounterInc (labels : list string)
| EvGaugeAdd (labels : list string) (delta : Z)
| EvObserve (instrument : string) (d : Duration)
| EvSetGlobalTracer (installed : bool)
| EvDial (network addr : string)
| EvSignalNotify
| EvGo (what : string)
| EvHandle (pattern : string)
| EvSignalReceived
| EvCancel (what : string)
| EvServerShutdown (deadline : Duration)
| EvConnClose
| EvCloserClose.

#[global] Instance Level_eq_dec : EqDecision Level.
Proof. solve_decision. Defined.
#[global] Instance Sink_eq_dec : EqDecision Sink.
Proof. solve_decision. Defined.
#[global] Instance Event_eq_dec : EqDecision Event.
Proof. solve_decision. Defined.

(** ** The response writer *)

(** [http.ResponseWriter]: the header map, the status line once it has been
    written, and the body bytes written so far. *)
Record ResponseWriter := mkRW {
  rw_header : gmap string string;
  rw_status : option Z;
  rw_body : string
}.

Definition fresh_writer : ResponseWriter :=
  {| rw_header := ∅; rw_status := None; rw_body := "" |}.

Definition StatusOK : Z := 200.
Definition StatusInternalServerError : Z := 500.

(** ** The world *)

(** A [slog.Logger] is the sink of its handler and the attributes
    accumulated by [With]. A failed write to the sink is dropped by the
    handler's caller: logging never changes control flow. *)
Record Logger := mkLogger {
  logger_sink : Sink;
  logger_attrs : list (string * string)
}.

(** Counter children are keyed by their label values and count [Inc]
    calls; the gauge accumulates the integer samples it is fed (the
    [float64] conversions of the source are exact on these values); summary
    and histogram keep the observed durations in order of arrival
    ([Observe] receives [duration.Seconds()], a function of the duration
    recorded here). [slog_default] is the logger behind the package-level
    [slog] functions. *)
Record World := mkWorld {
  now : Z;
  counters : gmap (list string) nat;
  gauges : gmap (list string) Z;
  summary : list Duration;
  histogram : list Duration;
  writer : ResponseWriter;
  slog_default : Logger;
  trace : list (Z * Event)
}.

Definition initial_world : World :=
  {| now := 0; counters := ∅; gauges := ∅; summary := []; histogram := [];
     writer := fresh_writer;
     slog_default := {| logger_sink := Stderr; logger_attrs := [] |};
     trace := [] |}.

Definition counter_value (w : World) (labels : list string) : nat :=
  default 0%nat (counters w !! labels).

Definition gauge_value (w : World) (labels : list string) : Z :=
  default 0 (gauges w !! labels).

Definition events (w : World) : list Event := (trace w).*2.

(** ** Control: return, panic, exit, defer *)

(** A Go function body either returns, panics, or ends the process through
    [os.Exit] (which [log.Fatalf] calls). *)
Inductive Outcome (A : Type) :=
| Returned (a : A)
| Panicked (msg : string)
| Exited (code : Z).
Arguments Returned {A} a.
Arguments Panicked {A} msg.
Arguments Exited {A} code.

Definition Go (A : Type) : Type := World -> Outcome A * World.

Definition ret {A} (a : A) : Go A := fun w => (Returned a, w).

Definition bind {A B} (m : Go A) (k : A -> Go B) : Go B :=
  fun w =>
    match m w with
    | (Returned a, w') => k a w'
    | (Panicked msg, w') => (Panicked msg, w')
    | (Exited c, w') => (Exited c, w')
    end.

Declare Scope go_scope.
Delimit Scope go_scope with go.
Notation "x <- m ;; k" := (bind m (fun x => k))
  (at level 100, m at level 99, k at level 200,
   right associativity) : go_scope.
Notation "m ;;; k" := (bind m (fun _ => k))
  (at level 100, k at level 200, right associativity) : go_scope.
Local Open Scope go_scope.

Definition panic {A} (msg : string) : Go A := fun w => (Panicked msg, w).
Definition os_Exit {A} (code : Z) : Go A := fun w => (Exited code, w).

Definition nil_dereference : string :=
  "runtime error: invalid memory address or nil pointer dereference".

(** [defer f()] followed by the rest of the function body: the deferred
    call runs when the body returns and also when it panics, the panic
    continuing afterwards; [os.Exit] runs no deferred call. *)
Definition defer {A} (cleanup : Go unit) (body : Go A) : Go A :=
  fun w =>
    match body w with
    | (Returned a, w') =>
        match cleanup w' with
        | (Returned _, w'') => (Returned a, w'')
        | (Panicked m, w'') => (Panicked m, w'')
        | (Exited c, w'') => (Exited c, w'')
        end
    | (Panicked msg, w') =>
        match cleanup w' with
        | (Returned _, w'') => (Panicked msg, w'')
        | (Panicked m, w'') => (Panicked m, w'')
        | (Exited c, w'') => (Exited c, w'')
        end
    | (Exited c, w') => (Exited c, w')
    end.

(** [defer x.M()] where [x] is a pointer or an interface value: the
    receiver (and with it the method value) is evaluated when the [defer]
    statement executes, so a nil receiver panics there and the rest of the
    body never runs. *)
Definition defer_on {A X} (recv : option X) (call : X -> Go unit)
    (body : Go A) : Go A :=
  match recv with
  | None => panic nil_dereference
  | Some x => defer (call x) body
  end.

(** ** Primitive effects *)

Definition emit (e : Event) : Go unit :=
  fun w =>
    (Returned tt,
     {| now := now w; counters := counters w; gauges := gauges w;
        summary := summary w; histogram := histogram w;
        writer := writer w;
        slog_default := slog_default w; trace := trace w ++ [(now w, e)] |}).

Definition time_Now : Go Z := fun w => (Returned (now w), w).

Definition advance (d : Duration) : Go unit :=
  fun w =>
    (Returned tt,
     {| now := now w + d; counters := counters w; gauges := gauges w;
        summary := summary w; histogram := histogram w;
        writer := writer w;
        slog_default := slog_default w; trace := trace w |}).

(** [time.Sleep d] pauses for [d]; a non-positive [d] returns at once. *)
Definition Sleep (d : Duration) : Go unit :=
  emit (EvSleep d) ;;; advance (Z.max 0 d).

Definition time_Since (t : Z) : Go Duration :=
  t' <- time_Now ;; ret (t' - t).

(** *** Prometheus instruments *)

Definition counter_label_names : list string := ["method"; "path"; "code"].
Definition gauge_label_names : list string := ["country_id"; "city_id"].

Definition set_counters (f : gmap (list string) nat -> gmap (list string) nat)
    (w : World) : World :=
  {| now := now w; counters := f (counters w); gauges := gauges w;
     summary := summary w; histogram := histogram w;
     writer := writer w;
        slog_default := slog_default w; trace := trace w |}.

Definition set_gauges (f : gmap (list string) Z -> gmap (list string) Z)
    (w : World) : World :=
  {| now := now w; counters := counters w; gauges := f (gauges w);
     summary := summary w; histogram := histogram w;
     writer := writer w;
        slog_default := slog_default w; trace := trace w |}.

(** [metricCounter.WithLabelValues(lvs...)]: the child for these label
    values, created at zero on first use; a wrong number of label values
    panics.  The result is the child; nothing is counted yet. *)
Definition counter_WithLabelValues (lvs : list string) : Go (list string) :=
  if (length lvs =? length counter_label_names)%nat then
    fun w =>
      (Returned lvs,
       set_counters (fun m => match m !! lvs with
                              | Some _ => m
                              | None => <[lvs := 0%nat]> m
                              end) w)
  else panic "inconsistent label cardinality".

(** [child.Inc()] *)
Definition counter_Inc (child : list string) : Go unit :=
  emit (EvCounterInc child) ;;;
  fun w =>
    (Returned tt,
     set_counters (fun m => <[child := S (default 0%nat (m !! child))]> m) w).

Definition gauge_WithLabelValues (lvs : list string) : Go (list string) :=
  if (length lvs =? length gauge_label_names)%nat then
    fun w =>
      (Returned lvs,
       set_gauges (fun m => match m !! lvs with
                            | Some _ => m
                            | None => <[lvs := 0]> m
                            end) w)
  else panic "inconsistent label cardinality".

(** [child.Add(v)] *)
Definition gauge_Add (child : list string) (v : Z) : Go unit :=
  emit (EvGaugeAdd child v) ;;;
  fun w =>
    (Returned tt,
     set_gauges (fun m => <[child := default 0 (m !! child) + v]> m) w).

Definition summary_name : string := "order_processing_duration".
Definition histogram_name : string := "transcation_processing_time".

(** [metricSummary.Observe(d.Seconds())] *)
Definition metricSummary_Observe (d : Duration) : Go unit :=
  emit (EvObserve summary_name d) ;;;
  fun w =>
    (Returned tt,
     {| now := now w; counters := counters w; gauges := gauges w;
        summary := summary w ++ [d]; histogram := histogram w;
        writer := writer w;
        slog_default := slog_default w; trace := trace w |}).

(** [metricsHistogram.Observe(d.Seconds())] *)
Definition metricsHistogram_Observe (d : Duration) : Go unit :=
  emit (EvObserve histogram_name d) ;;;
  fun w =>
    (Returned tt,
     {| now := now w; counters := counters w; gauges := gauges w;
        summary := summary w; histogram := histogram w ++ [d];
        writer := writer w;
        slog_default := slog_default w; trace := trace w |}).

(** *** Logging *)

(** The builtin [println]: a line on standard error. *)
Definition println (msg : string) : Go unit :=
  emit (EvLog Stderr LevelInfo msg []).

(** [log.Println], [log.Printf], [log.Print]: the default logger of package
    [log] and the default logger of package [slog] are tied together. At
    process start both write to standard error; [slog.SetDefault(l)] also
    redirects package [log], whose lines then go through the handler of
    [l] at level INFO. *)
Definition log_Println (msg : string) : Go unit :=
  fun w =>
    emit (EvLog (logger_sink (slog_default w)) LevelInfo msg
            (logger_attrs (slog_default w))) w.

Definition Logger_With (l : Logger) (kvs : list (string * string)) : Logger :=
  {| logger_sink := logger_sink l; logger_attrs := logger_attrs l ++ kvs |}.

Definition Logger_Info (l : Logger) (msg : string) : Go unit :=
  emit (EvLog (logger_sink l) LevelInfo msg (logger_attrs l)).

Definition Logger_Error (l : Logger) (msg : string) : Go unit :=
  emit (EvLog (logger_sink l) LevelError msg (logger_attrs l)).

(** *** Tracing *)

Record Tracer := mkTracer { tracer_service : string }.
Record Closer := mkCloser { closer_service : string }.
Record Span := mkSpan { span_name : string; span_parent : option string }.

(** [tracer.StartSpan(name)] on an interface value: a nil tracer panics. *)
Definition StartSpan (tracer : option Tracer) (name : string) : Go Span :=
  match tracer with
  | None => panic nil_dereference
  | Some _ =>
      emit (EvSpanStart name None) ;;;
      ret {| span_name := name; span_parent := None |}
  end.

(** A [context.Context] as far as this program reads it: the active
    span. *)
Definition Context := option Span.

Definition ContextWithSpan (ctx : Context) (span : Span) : Context :=
  Some span.

(** [opentracing.StartSpanFromContext(ctx, name)]: a child of the span in
    [ctx]; without one, a root span of the global tracer. *)
Definition StartSpanFromContext (tracer : option Tracer) (ctx : Context)
    (name : string) : Go (Span * Context) :=
  match ctx with
  | Some parent =>
      let s := {| span_name := name; span_parent := Some (span_name parent) |} in
      emit (EvSpanStart name (Some (span_name parent))) ;;;
      ret (s, Some s)
  | None =>
      s <- StartSpan tracer name ;;
      ret (s, Some s)
  end.

Definition Span_Finish (s : Span) : Go unit :=
  emit (EvSpanFinish (span_name s)).

(** *** Writing the response *)

Definition set_writer (f : ResponseWriter -> ResponseWriter) (w : World)
    : World :=
  {| now := now w; counters := counters w; gauges := gauges w;
     summary := summary w; histogram := histogram w;
     writer := f (writer w);
        slog_default := slog_default w; trace := trace w |}.

(** [w.Header().Set(k, v)] *)
Definition Header_Set (k v : string) : Go unit :=
  fun w =>
    (Returned tt,
     set_writer (fun rw => {| rw_header := <[k := v]> (rw_header rw);
                              rw_status := rw_status rw;
                              rw_body := rw_body rw |}) w).

(** [w.WriteHeader(code)]: the first call fixes the status; later calls
    are ignored. *)
Definition WriteHeader (code : Z) : Go unit :=
  fun w =>
    (Returned tt,
     set_writer (fun rw => {| rw_header := rw_header rw;
                              rw_status := match rw_status rw with
                                           | Some c => Some c
                                           | None => Some code
                                           end;
                              rw_body := rw_body rw |}) w).

(** [w.Write(b)]: writes the status 200 first when none was written. *)
Definition rw_Write (b : string) : Go unit :=
  WriteHeader StatusOK ;;;
  fun w =>
    (Returned tt,
     set_writer (fun rw => {| rw_header := rw_header rw;
                              rw_status := rw_status rw;
                              rw_body := rw_body rw +:+ b |}) w).

(** What the client of one request gets. [net/http] recovers a panic of
    the handler, logs it and drops the connection: the request is aborted
    and whatever had not been written is never sent. A handler that
    returns without writing anything answers 200 with an empty body. *)
Inductive Served :=
| Responded (status : Z) (header : gmap string string) (body : string)
| Aborted (written : ResponseWriter)
| ProcessExited (code : Z).

Definition serve (handler : Go unit) (w : World) : Served * World :=
  let '(o, w') := handler (set_writer (fun _ => fresh_writer) w) in
  match o with
  | Returned _ =>
      (Responded (default StatusOK (rw_status (writer w')))
                 (rw_header (writer w')) (rw_body (writer w')), w')
  | Panicked _ => (Aborted (writer w'), w')
  | Exited c => (ProcessExited c, w')
  end.

Definition served_status (s : Served) : option Z :=
  match s with
  | Responded st _ _ => Some st
  | _ => None
  end.

Definition served_body (s : Served) : option string :=
  match s with
  | Responded _ _ b => Some b
  | _ => None
  end.

(** ** [encoding/json] on the response types *)

(** The three structs of the response, with the field tags of the source:
<<
    ResponseData { Data  Data  `json:"data"`
                   Error Error `json:"error,omitempty"` }
    Data         { OrderID int `json:"order_id"` }
    Error        { Message     string `json:"message,omitempty"`
                   Description string `json:"description,omitempty"` }
>> *)
Record Data := mkData { OrderID : Z }.
Record Error := mkError { Message : string; Description : string }.
Record ResponseData := mkResponseData { resp_Data : Data; resp_Error : Error }.

#[global] Instance Data_eq_dec : EqDecision Data.
Proof. solve_decision. Defined.
#[global] Instance Error_eq_dec : EqDecision Error.
Proof. solve_decision. Defined.
#[global] Instance ResponseData_eq_dec : EqDecision ResponseData.
Proof. solve_decision. Defined.

(** The zero value of [Error], which a composite literal that does not
    mention the field leaves in place. *)
Definition zero_Error : Error := {| Message := ""; Description := "" |}.

Module Json.

Local Unset Elimination Schemes.

(** JSON documents, as far as these types produce them. *)
Inductive JSON :=
| JNum (z : Z)
| JStr (s : string)
| JObj (members : list (string * JSON)).

(** What the encoder sees through reflection: the kind of a value and,
    for a struct, each exported field with its tag. *)
Record FieldTag := mkTag { json_name : string; omitempty : bool }.

Inductive GoValue :=
| GInt (z : Z)
| GString (s : string)
| GStruct (fields : list (FieldTag * GoValue)).

Local Set Elimination Schemes.

(** [isEmptyValue] of the encoder: a zero number, an empty string (and a
    false boolean, a nil pointer or interface, an empty array, slice or
    map, none of which occur here). A struct value is never empty. *)
Definition isEmptyValue (v : GoValue) : bool :=
  match v with
  | GInt z => z =? 0
  | GString s => bool_decide (s = "")
  | GStruct _ => false
  end.

(** A struct becomes an object with its fields in declaration order,
    leaving out each field tagged [omitempty] whose value is empty. *)
Fixpoint marshal (v : GoValue) : JSON :=
  match v with
  | GInt z => JNum z
  | GString s => JStr s
  | GStruct fields =>
      JObj ((fix members (fs : list (FieldTag * GoValue)) :=
               match fs with
               | [] => []
               | (tag, fv) :: rest =>
                   if omitempty tag && isEmptyValue fv
                   then members rest
                   else (json_name tag, marshal fv) :: members rest
               end) fields)
  end.

Definition dquote : string := String (ascii_of_nat 34) "".
Definition backslash : string := String (ascii_of_nat 92) "".

Definition hex_digit (n : nat) : string :=
  String (ascii_of_nat (if (n <? 10)%nat then 48 + n else 87 + n)) "".

(** String escaping of the encoder on ASCII text: quote, backslash and
    control characters, and the HTML-sensitive characters that
    [Encoder] escapes by default. *)
Definition escape_char (c : ascii) : string :=
  let n := nat_of_ascii c in
  if (n =? 34)%nat then backslash +:+ dquote
  else if (n =? 92)%nat then backslash +:+ backslash
  else if (n =? 10)%nat then backslash +:+ "n"
  else if (n =? 13)%nat then backslash +:+ "r"
  else if (n =? 9)%nat then backslash +:+ "t"
  else if (n <? 32)%nat || (n =? 60)%nat || (n =? 62)%nat || (n =? 38)%nat
  then backslash +:+ "u00" +:+ hex_digit (n / 16) +:+ hex_digit (n mod 16)
  else String c "".

Fixpoint escape (s : string) : string :=
  match s with
  | EmptyString => ""
  | String c rest => escape_char c +:+ escape rest
  end.

Definition quoted (s : string) : string := dquote +:+ escape s +:+ dquote.

Fixpoint render (j : JSON) : string :=
  match j with
  | JNum z => pretty z
  | JStr s => quoted s
  | JObj members =>
      "{" +:+
      (fix go (first : bool) (ms : list (string * JSON)) : string :=
         match ms with
         | [] => ""
         | (k, v) :: rest =>
             (if first then "" else ",") +:+
             quoted k +:+ ":" +:+ render v +:+ go false rest
         end) true members
      +:+ "}"
  end.

(** The reflection view of the response types. *)
Definition reflect_Data (d : Data) : GoValue :=
  GStruct [ (mkTag "order_id" false, GInt (OrderID d)) ].

Definition reflect_Error (e : Error) : GoValue :=
  GStruct [ (mkTag "message" true, GString (Message e));
            (mkTag "description" true, GString (Description e)) ].

Definition reflect_ResponseData (r : ResponseData) : GoValue :=
  GStruct [ (mkTag "data" false, reflect_Data (resp_Data r));
            (mkTag "error" true, reflect_Error (resp_Error r)) ].

(** [json.Marshal(r)] *)
Definition Marshal (r : ResponseData) : string :=
  render (marshal (reflect_ResponseData r)).

Definition newline : string := String (ascii_of_nat 10) "".

(** [json.NewEncoder(w).Encode(r)]: the document followed by a newline,
    written to the response writer. *)
Definition Encode (r : ResponseData) : Go unit :=
  rw_Write (Marshal r +:+ newline).

(** Membership of a key in an object. *)
Definition has_member (k : string) (j : JSON) : bool :=
  match j with
  | JObj ms => bool_decide (k ∈ ms.*1)
  | _ => false
  end.

(** *** Decoding *)

Definition is_char (n : nat) (c : ascii) : bool := (nat_of_ascii c =? n)%nat.

Definition is_space (c : ascii) : bool :=
  is_char 32 c || is_char 9 c || is_char 10 c || is_char 13 c.

Fixpoint skip_space (s : string) : string :=
  match s with
  | String c rest => if is_space c then skip_space rest else s
  | EmptyString => s
  end.

Definition hex_value (c : ascii) : option nat :=
  let n := nat_of_ascii c in
  if (48 <=? n)%nat && (n <=? 57)%nat then Some (n - 48)%nat
  else if (97 <=? n)%nat && (n <=? 102)%nat then Some (n - 87)%nat
  else if (65 <=? n)%nat && (n <=? 70)%nat then Some (n - 55)%nat
  else None.

(** The text of a string literal, read from just after its opening
    quote up to the closing one, with the escapes undone (only the
    ASCII range of [\u] escapes is supported). *)
Fixpoint scan_string (s : string) : option (string * string) :=
  match s with
  | EmptyString => None
  | String c rest =>
      if is_char 34 c then Some ("", rest)
      else if is_char 92 c then
        match rest with
        | String e rest' =>
            if is_char 117 e then
              match rest' with
              | String h1 (String h2 (String h3 (String h4 rest''))) =>
                  a ← hex_value h1; b ← hex_value h2;
                  c' ← hex_value h3; d ← hex_value h4;
                  (if (a =? 0)%nat && (b =? 0)%nat then
                     '(txt, tl) ← scan_string rest'';
                     Some (String (ascii_of_nat (16 * c' + d)) txt, tl)
                   else None)
              | _ => None
              end
            else
              ch ← (if is_char 34 e || is_char 92 e || is_char 47 e
                    then Some e
                    else if is_char 110 e then Some (ascii_of_nat 10)
                    else if is_char 114 e then Some (ascii_of_nat 13)
                    else if is_char 116 e then Some (ascii_of_nat 9)
                    else if is_char 98 e then Some (ascii_of_nat 8)
                    else if is_char 102 e then Some (ascii_of_nat 12)
                    else None);
              '(txt, tl) ← scan_string rest';
              Some (String ch txt, tl)
        | EmptyString => None
        end
      else
        '(txt, tl) ← scan_string rest;
        Some (String c txt, tl)
  end.

Definition digit_value (c : ascii) : option Z :=
  let n := nat_of_ascii c in
  if (48 <=? n)%nat && (n <=? 57)%nat then Some (Z.of_nat (n - 48)) else None.

Fixpoint scan_digits (acc : Z) (s : string) : Z * string :=
  match s with
  | String c rest =>
      match digit_value c with
      | Some d => scan_digits (10 * acc + d) rest
      | None => (acc, s)
      end
  | EmptyString => (acc, s)
  end.

(** An integer literal: an optional minus sign and at least one digit. *)
Definition scan_int (s : string) : option (Z * string) :=
  match s with
  | String c rest =>
      if is_char 45 c then
        match rest with
        | String c' rest' =>
            d ← digit_value c';
            let '(n, tl) := scan_digits d rest' in Some (- n, tl)
        | EmptyString => None
        end
      else
        d ← digit_value c;
        let '(n, tl) := scan_digits d rest in Some (n, tl)
  | EmptyString => None
  end.

(** One value at the head of the input, and the input after it.
    [parse_members] reads the members of an object whose opening brace
    has been consumed and whose first key is next. *)
Fixpoint parse_value (fuel : nat) (s : string) : option (JSON * string) :=
  match fuel with
  | O => None
  | S fuel' =>
      match skip_space s with
      | String c rest =>
          if is_char 123 c then
            match skip_space rest with
            | String c' rest' =>
                if is_char 125 c' then Some (JObj [], rest')
                else
                  '(ms, tl) ← parse_members fuel' (String c' rest');
                  Some (JObj ms, tl)
            | EmptyString => None
            end
          else if is_char 34 c then
            '(txt, tl) ← scan_string rest; Some (JStr txt, tl)
          else
            '(n, tl) ← scan_int (String c rest); Some (JNum n, tl)
      | EmptyString => None
      end
  end
with parse_members (fuel : nat) (s : string)
    : option (list (string * JSON) * string) :=
  match fuel with
  | O => None
  | S fuel' =>
      match s with
      | String c rest =>
          if is_char 34 c then
            '(k, tl) ← scan_string rest;
            match skip_space tl with
            | String c2 tl2 =>
                if is_char 58 c2 then
                  '(v, tl3) ← parse_value fuel' tl2;
                  match skip_space tl3 with
                  | String c3 tl4 =>
                      if is_char 125 c3 then Some ([(k, v)], tl4)
                      else if is_char 44 c3 then
                        '(ms, tl5) ← parse_members fuel' (skip_space tl4);
                        Some ((k, v) :: ms, tl5)
                      else None
                  | EmptyString => None
                  end
                else None
            | EmptyString => None
            end
          else None
      | EmptyString => None
      end
  end.

(** The whole input as one document. *)
Definition parse (s : string) : option JSON :=
  '(j, tl) ← parse_value (S (String.length s)) s;
  if bool_decide (skip_space tl = "") then Some j else None.

(** The value of a key of an object; of several members with the same
    key the decoder keeps the last. *)
Definition member (k : string) (ms : list (string * JSON)) : option JSON :=
  (last (filter (fun kv => kv.1 = k) ms)) ≫= (fun kv => Some kv.2).

(** Decoding into the response types, starting from their zero values:
    an absent key leaves the field untouched, a value of the wrong kind
    is an error. Keys are matched exactly. *)
Definition decode_Data (j : JSON) : option Data :=
  match j with
  | JObj ms =>
      match member "order_id" ms with
      | None => Some {| OrderID := 0 |}
      | Some (JNum z) => Some {| OrderID := z |}
      | Some _ => None
      end
  | _ => None
  end.

Definition decode_string_field (k : string) (ms : list (string * JSON))
    : option string :=
  match member k ms with
  | None => Some ""
  | Some (JStr s) => Some s
  | Some _ => None
  end.

Definition decode_Error (j : JSON) : option Error :=
  match j with
  | JObj ms =>
      m ← decode_string_field "message" ms;
      d ← decode_string_field "description" ms;
      Some {| Message := m; Description := d |}
  | _ => None
  end.

Definition decode_ResponseData (j : JSON) : option ResponseData :=
  match j with
  | JObj ms =>
      d ← match member "data" ms with
          | None => Some {| OrderID := 0 |}
          | Some dj => decode_Data dj
          end;
      e ← match member "error" ms with
          | None => Some zero_Error
          | Some ej => decode_Error ej
          end;
      Some {| resp_Data := d; resp_Error := e |}
  | _ => None
  end.

(** [json.Unmarshal(body, &r)] with [r] a zero [ResponseData]. *)
Definition Unmarshal (body : string) : option ResponseData :=
  parse body ≫= decode_ResponseData.

End Json.

(** *** The package-level logger *)

(** [slog.SetDefault(l)] *)
Definition slog_SetDefault (l : Logger) : Go unit :=
  fun w =>
    (Returned tt,
     {| now := now w; counters := counters w; gauges := gauges w;
        summary := summary w; histogram := histogram w;
        writer := writer w; slog_default := l; trace := trace w |}).

(** [slog.Error(msg)] *)
Definition slog_Error (msg : string) : Go unit :=
  fun w => Logger_Error (slog_default w) msg w.

(** The loggers of the full variant: [slog.New] over a JSON handler on the
    Logstash connection, and the one derived from it in [main]. *)
Definition logstash_logger : Logger :=
  {| logger_sink := Logstash; logger_attrs := [] |}.

(** *** Random numbers *)

(** [rand.Intn(n)] is a number of the half-open interval [[0, n)] and
    panics when [n <= 0]: the generator's draw reduced modulo [n]. The
    draw is an input of the model. *)
Definition Intn_result (draw n : Z) : Z := draw mod n.

Definition Intn (draw n : Z) : Go Z :=
  if n <=? 0 then panic "invalid argument to Intn"
  else ret (Intn_result draw n).

(** *** Cancellation *)

(** A context cancelled at instant [cancel_at] (never, for [None]):
    [ctx.Done()] is ready from that instant on, which is what a [select]
    with a [default] branch tests. *)
Definition ctx_Done (cancel_at : option Z) (t : Z) : bool :=
  match cancel_at with
  | Some c => c <=? t
  | None => false
  end.

(** ** Stage 4: exposing the request counter *)

Module ExposingHttpRequestMetric.

(** [/ping] *)
Definition ping : Go unit :=
  WriteHeader StatusOK ;;;
  rw_Write "pong".

(** [/orders] *)
Definition orders (draw : Z) : Go unit :=
  Sleep (450 * Millisecond) ;;;
  id <- Intn draw 1000 ;;
  let responseData :=
    {| resp_Data := {| OrderID := id |}; resp_Error := zero_Error |} in
  if Z.rem (OrderID (resp_Data responseData)) 2 =? 0 then
    _ <- counter_WithLabelValues ["POST"; "/orders"; "200"] ;;
    Header_Set "Content-Type" "application/json" ;;;
    WriteHeader StatusOK ;;;
    Json.Encode responseData
  else
    _ <- counter_WithLabelValues ["POST"; "/orders"; "500"] ;;
    Header_Set "Content-Type" "application/json" ;;;
    WriteHeader StatusInternalServerError ;;;
    let responseData :=
      {| resp_Data := resp_Data responseData;
         resp_Error :=
           {| Message := "failure, this is simulated by test devs";
              Description := "error" |} |} in
    Json.Encode responseData.

End ExposingHttpRequestMetric.

(** ** The variant with the gauge and its simulation job *)

Module GaugeJob.

(** One trip round the [for] loop of the background goroutine; [false]
    when the goroutine has returned. *)
Definition job_step (cancel_at : option Z) (draw : Z) : Go bool :=
  t <- time_Now ;;
  if ctx_Done cancel_at t then
    println "stopping job simulation" ;;;
    ret false
  else
    log_Println ("sending metrics at " +:+ pretty t) ;;;
    n <- Intn draw 1000 ;;
    child <- gauge_WithLabelValues ["ID"; "JAK"] ;;
    gauge_Add child n ;;;
    Sleep (300 * Millisecond) ;;;
    ret true.

(** The goroutine, for as many iterations as there are draws; [true]
    when it is still running after them. *)
Fixpoint job (cancel_at : option Z) (draws : list Z) : Go bool :=
  match draws with
  | [] => ret true
  | d :: ds =>
      running <- job_step cancel_at d ;;
      if running then job cancel_at ds else ret false
  end.

Definition ping : Go unit :=
  WriteHeader StatusOK ;;;
  rw_Write "pong".

(** [/orders] *)
Definition orders (draw : Z) : Go unit :=
  Sleep (450 * Millisecond) ;;;
  id <- Intn draw 1000 ;;
  let responseData :=
    {| resp_Data := {| OrderID := id |}; resp_Error := zero_Error |} in
  if Z.rem (OrderID (resp_Data responseData)) 2 =? 0 then
    _ <- counter_WithLabelValues ["POST"; "/orders"; "200"] ;;
    Header_Set "Content-Type" "application/json" ;;;
    WriteHeader StatusOK ;;;
    Json.Encode responseData
  else
    _ <- counter_WithLabelValues ["POST"; "/orders"; "500"] ;;
    Header_Set "Content-Type" "application/json" ;;;
    WriteHeader StatusInternalServerError ;;;
    let responseData :=
      {| resp_Data := resp_Data responseData;
         resp_Error :=
           {| Message := "failure, this is simulated by test devs";
              Description := "error" |} |} in
    Json.Encode responseData.

End GaugeJob.

(** ** The full variant: tracing, structured logs, summary, histogram and
    graceful shutdown *)

Module Tracing.

Definition serviceName : string := "golang_app".

(** *** What the surroundings decide *)

(** The outcome of building the Jaeger tracer. [cfg.NewTracer] belongs to
    jaeger-client-go, whose every error return is [nil, nil, err]: on
    failure there is neither a tracer nor a closer. *)
Inductive TracerSetup :=
| TracerReady (tracer : Tracer) (closer : Closer)
| TracerFailed (err : string).

Definition cfg_NewTracer (s : TracerSetup)
    : option Tracer * option Closer * option string :=
  match s with
  | TracerReady t c => (Some t, Some c, None)
  | TracerFailed e => (None, None, Some e)
  end.

Record Conn := mkConn { conn_addr : string }.

(** One run of the process: how the tracer set-up and the dial to
    Logstash end and, for the shutdown after the termination signal, the
    error (if any) of closing the server's listeners and the time the
    requests in flight need to finish. *)
Record Startup := mkStartup {
  tracer_setup : TracerSetup;
  dial_error : option string;
  listener_error : option string;
  drain_time : Duration
}.

Record Response := mkResponse { StatusCode : Z }.

(** One request: the generator's draw, and the pair [(res, err)] that
    [client.Do] returns for the inventory call after [inventory_latency]. *)
Record Env := mkEnv {
  draw : Z;
  inventory_reply : option Response * option string;
  inventory_latency : Duration
}.

(** *** [InitTracer] *)

Definition InitTracer (s : TracerSetup) (serviceName : string)
    : Go (option Tracer * option Closer) :=
  let '(tracer, closer, err) := cfg_NewTracer s in
  (if err is Some _ then slog_Error "failed to start tracer" else ret tt) ;;;
  emit (EvSetGlobalTracer (bool_decide (is_Some tracer))) ;;;
  ret (tracer, closer).

(** *** The workflow steps *)

Definition insertToDB (tracer : option Tracer) (logger : Logger)
    (ctx : Context) : Go unit :=
  sc <- StartSpanFromContext tracer ctx "2_inserting_order_data_to_db" ;;
  let span := sc.1 in
  defer (Span_Finish span)
    (Sleep (500 * Millisecond) ;;;
     Logger_Info logger "inserting to db...").

(** [client.Do(req)] *)
Definition client_Do (env : Env) (method url : string)
    : Go (option Response * option string) :=
  emit (EvHTTPDo method url) ;;;
  advance (Z.max 0 (inventory_latency env)) ;;;
  ret (inventory_reply env).

Definition callInventoryService (tracer : option Tracer) (env : Env)
    (ctx : Context) : Go unit :=
  sc <- StartSpanFromContext tracer ctx
          "3_http_get_inventory_service_check_stock" ;;
  let span := sc.1 in
  defer (Span_Finish span)
    (emit (EvInject (span_name span)) ;;;
     re <- client_Do env "GET" "http://localhost:2000/checkstock" ;;
     let res := re.1 in
     let err := re.2 in
     (if err is Some _
      then slog_Error "failed to call inventory service"
      else ret tt) ;;;
     defer_on res (fun _ => emit EvBodyClose) (ret tt)).

(** *** [/orders] *)

Definition orders (tracer : option Tracer) (logger : Logger) (env : Env)
    : Go unit :=
  span <- StartSpan tracer "creating order" ;;
  defer (Span_Finish span)
    (let ctx := ContextWithSpan None span in
     sc <- StartSpanFromContext tracer ctx "1_validating_order_data" ;;
     let subSpan1 := sc.1 in
     Sleep (200 * Millisecond) ;;;
     Span_Finish subSpan1 ;;;
     insertToDB tracer logger ctx ;;;
     callInventoryService tracer env ctx ;;;
     startTime <- time_Now ;;
     log_Println "serving traffic ..." ;;;
     id <- Intn (draw env) 1000 ;;
     let responseData :=
       {| resp_Data := {| OrderID := id |}; resp_Error := zero_Error |} in
     (if Z.rem (OrderID (resp_Data responseData)) 2 =? 0 then
        Sleep (100 * Millisecond) ;;;
        child <- counter_WithLabelValues ["POST"; "/orders"; "200"] ;;
        counter_Inc child ;;;
        Header_Set "Content-Type" "application/json" ;;;
        WriteHeader StatusOK ;;;
        Json.Encode responseData
      else
        Sleep (400 * Millisecond) ;;;
        let err := "connection to inventory service disconnected" in
        let customerID := "123" in
        Logger_Error
          (Logger_With logger
             [("customer_id", customerID); ("error", err);
              ("product_id", "product-a");
              ("product_category", "electronic")])
          "failed to connect to inventory service" ;;;
        child <- counter_WithLabelValues ["POST"; "/orders"; "500"] ;;
        counter_Inc child ;;;
        Header_Set "Content-Type" "application/json" ;;;
        WriteHeader StatusInternalServerError ;;;
        let responseData :=
          {| resp_Data := resp_Data responseData;
             resp_Error :=
               {| Message := "failure, this is simulated by devs";
                  Description := "" |} |} in
        Json.Encode responseData) ;;;
     duration <- time_Since startTime ;;
     metricSummary_Observe duration ;;;
     metricsHistogram_Observe duration).

(** *** [/internal/orders] *)

Definition internal_orders_body : string :=
  "{" +:+ Json.dquote +:+ "data" +:+ Json.dquote +:+ ":{}}".

Definition internal_orders (tracer : option Tracer) (logger : Logger)
    : Go unit :=
  span <- StartSpan tracer "creating order" ;;
  defer (Span_Finish span)
    (let err := "payment gateway not responding, with http status code 502" in
     Logger_Error
       (Logger_With logger
          [("tracer_id", "trace-id-a"); ("request_id", "request-id-sample");
           ("customer_id", "customer-1"); ("error", err);
           ("product_id", "product-a"); ("order_id", "order-id-sample")])
       "failing validating payment" ;;;
     child <- counter_WithLabelValues ["GET"; "/internal/orders"; "200"] ;;
     counter_Inc child ;;;
     WriteHeader StatusOK ;;;
     rw_Write internal_orders_body).

(** [/ping] *)
Definition ping : Go unit :=
  child <- counter_WithLabelValues ["GET"; "/ping"; "200"] ;;
  counter_Inc child ;;;
  WriteHeader StatusOK ;;;
  rw_Write "pong".

(** *** The background goroutine *)

Definition job_step (cancel_at : option Z) (draw : Z) : Go bool :=
  t <- time_Now ;;
  if ctx_Done cancel_at t then
    log_Println "stopping job simulation" ;;;
    ret false
  else
    n <- Intn draw 100 ;;
    child <- gauge_WithLabelValues ["ID"; "JAK"] ;;
    gauge_Add child n ;;;
    Sleep (1 * Second) ;;;
    ret true.

Fixpoint job (cancel_at : option Z) (draws : list Z) : Go bool :=
  match draws with
  | [] => ret true
  | d :: ds =>
      running <- job_step cancel_at d ;;
      if running then job cancel_at ds else ret false
  end.

(** *** [main] *)

(** [net.Dial("tcp", addr)]: a connection, or an error and no
    connection. *)
Definition net_Dial (s : Startup) (network addr : string)
    : Go (option Conn * option string) :=
  emit (EvDial network addr) ;;;
  ret (match dial_error s with
       | Some e => (None, Some e)
       | None => (Some {| conn_addr := addr |}, None)
       end).

(** [log.Fatalf]: the line, then [os.Exit(1)]. *)
Definition log_Fatalf {A} (msg : string) : Go A :=
  log_Println msg ;;; os_Exit 1.

(** [server.Shutdown(ctx)] under a context that expires after [timeout]:
    it returns when the requests in flight have finished, with the error
    of closing the listeners, or when the context expires, with the
    context's error, whichever comes first. *)
Definition deadline_met (drain timeout : Duration) : bool :=
  drain <=? timeout.

Definition server_Shutdown (s : Startup) (timeout : Duration)
    : Go (option string) :=
  emit (EvServerShutdown timeout) ;;;
  if deadline_met (drain_time s) timeout then
    advance (Z.max 0 (drain_time s)) ;;;
    ret (listener_error s)
  else
    advance (Z.max 0 timeout) ;;;
    ret (Some "context deadline exceeded").

Definition simulation_job : string := "simulation job".
Definition listen_and_serve : string := "server.ListenAndServe :1000".

(** The goroutines that [main] starts run beside it: starting one is an
    event of [main]; the simulation job is [job] above and the server
    passes each request to the handler registered for its path. [main]
    then waits for the termination signal. *)
Definition main (s : Startup) : Go unit :=
  tc <- InitTracer (tracer_setup s) serviceName ;;
  let tracer := tc.1 in
  let closer := tc.2 in
  defer_on closer (fun _ => emit EvCloserClose)
    (let logstashAddr := "localhost:5000" in
     ce <- net_Dial s "tcp" logstashAddr ;;
     let conn := ce.1 in
     let err := ce.2 in
     (if err is Some e
      then log_Fatalf ("could not connect to Logstash: " +:+ e)
      else println "connected to logstash successfully") ;;;
     defer_on conn (fun _ => emit EvConnClose)
       (let logger := logstash_logger in
        slog_SetDefault logger ;;;
        let logger := Logger_With logger [("environment", "dev")] in
        Logger_Info logger "starting http server ..." ;;;
        defer (emit (EvCancel simulation_job))
          (emit EvSignalNotify ;;;
           emit (EvGo simulation_job) ;;;
           emit (EvHandle "/metrics") ;;;
           emit (EvHandle "/ping") ;;;
           emit (EvHandle "/orders") ;;;
           emit (EvHandle "/internal/orders") ;;;
           emit (EvGo listen_and_serve) ;;;
           emit EvSignalReceived ;;;
           log_Println "termination signal received, shutting down..." ;;;
           emit (EvCancel simulation_job) ;;;
           defer (emit (EvCancel "shutdown context"))
             (shutdownErr <- server_Shutdown s (5 * Second) ;;
              (if shutdownErr is Some e
               then log_Println
                      ("failled to shutdown http server due to error: " +:+ e)
               else log_Println "http server stopped gracefully") ;;;
              Sleep (2 * Second))))).

(** The exit status of the process: 0 when [main] returns, 2 when it
    panics, the argument of [os.Exit] otherwise. *)
Definition run (s : Startup) (w : World) : Z * World :=
  let '(o, w') := main s w in
  (match o with
   | Returned _ => 0
   | Panicked _ => 2
   | Exited c => c
   end, w').

End Tracing.

(** * Properties *)

Local Open Scope list_scope.

(** Symbolic execution of a handler or of [main]: the program's own
    definitions and the primitives are unfolded; arithmetic, maps, strings
    and the JSON encoder stay as they are. *)
Ltac go_run :=
  cbv beta iota zeta delta
    [serve bind ret panic os_Exit defer defer_on emit time_Now advance Sleep
     time_Since counter_WithLabelValues counter_Inc gauge_WithLabelValues
     gauge_Add metricSummary_Observe metricsHistogram_Observe log_Println
     println
     Logger_With Logger_Info Logger_Error StartSpan ContextWithSpan
     StartSpanFromContext Span_Finish set_writer set_counters set_gauges
     Header_Set WriteHeader rw_Write slog_SetDefault slog_Error Intn
     Json.Encode served_status served_body fresh_writer logstash_logger
     now counters gauges summary histogram writer slog_default trace
     rw_header rw_status rw_body span_name span_parent logger_sink
     logger_attrs OrderID resp_Data resp_Error
     counter_label_names gauge_label_names List.length Nat.eqb
     Z.leb Z.compare fst snd ctx_Done
     ExposingHttpRequestMetric.orders ExposingHttpRequestMetric.ping
     GaugeJob.orders GaugeJob.ping GaugeJob.job_step
     Tracing.orders Tracing.insertToDB Tracing.callInventoryService
     Tracing.client_Do Tracing.internal_orders Tracing.ping
     Tracing.job_step
     Tracing.draw Tracing.inventory_reply Tracing.inventory_latency
     Tracing.InitTracer Tracing.cfg_NewTracer Tracing.net_Dial
     Tracing.log_Fatalf Tracing.main Tracing.run
     Tracing.tracer_setup Tracing.dial_error Tracing.listener_error
     Tracing.drain_time Tracing.server_Shutdown].

(** ** The generated identifier *)

Lemma Intn_returns (draw n : Z) (w : World) :
  0 < n -> Intn draw n w = (Returned (Intn_result draw n), w).
Proof.
  intros Hn. unfold Intn.
  destruct (n <=? 0) eqn:E; [apply Z.leb_le in E; lia | reflexivity].
Qed.

Lemma Intn_result_range (draw n : Z) :
  0 < n -> 0 <= Intn_result draw n < n.
Proof. intros Hn. unfold Intn_result. apply Z.mod_pos_bound, Hn. Qed.

(** Go's [x % 2 == 0] (truncated remainder) is evenness. *)
Lemma rem2_even (x : Z) : (Z.rem x 2 =? 0) = Z.even x.
Proof.
  apply eq_true_iff_eq. rewrite Z.eqb_eq, Z.even_spec.
  rewrite Z.rem_divide by discriminate.
  split.
  - intros [k ->]. exists k. lia.
  - intros [k ->]. exists k. lia.
Qed.

Lemma even_or_odd (x : Z) : Z.odd x = negb (Z.even x).
Proof. symmetry. apply Z.negb_even. Qed.

(** The identifier of a request is the value [rand.Intn(1000)] returns
    for the request's draw. *)
Definition order_id (draw : Z) : Z := Intn_result draw 1000.

Definition status_of_parity (id : Z) : Z :=
  if Z.even id then StatusOK else StatusInternalServerError.

Lemma status_iff (st : option Z) (id : Z) :
  st = Some (status_of_parity id) ->
  (st = Some 200 <-> Z.even id = true) /\ (st = Some 500 <-> Z.odd id = true).
Proof.
  intros ->. unfold status_of_parity. rewrite even_or_odd.
  destruct (Z.even id); cbn; split; split; intros H;
    try reflexivity; try discriminate; inversion H.
Qed.

(** ** Status of the [/orders] response *)

Lemma stage4_orders_status (draw : Z) (w : World) :
  served_status (serve (ExposingHttpRequestMetric.orders draw) w).1
  = Some (status_of_parity (order_id draw)).
Proof.
  unfold status_of_parity, order_id. rewrite <- rem2_even.
  go_run. destruct (Z.rem _ _ =? 0); go_run; reflexivity.
Qed.

Lemma gaugejob_orders_status (draw : Z) (w : World) :
  served_status (serve (GaugeJob.orders draw) w).1
  = Some (status_of_parity (order_id draw)).
Proof.
  unfold status_of_parity, order_id. rewrite <- rem2_even.
  go_run. destruct (Z.rem _ _ =? 0); go_run; reflexivity.
Qed.

Lemma tracing_orders_status (tr : Tracer) (lg : Logger) (draw : Z)
    (res : Tracing.Response) (err : option string) (lat : Duration)
    (w : World) :
  served_status
    (serve (Tracing.orders (Some tr) lg
              (Tracing.mkEnv draw (Some res, err) lat)) w).1
  = Some (status_of_parity (order_id draw)).
Proof.
  unfold status_of_parity, order_id. rewrite <- rem2_even.
  go_run. destruct err; go_run; destruct (Z.rem _ _ =? 0); go_run;
    reflexivity.
Qed.

(** C1. In each of the three programs the [/orders] handler answers 200
    exactly when the generated identifier is even and 500 exactly when it
    is odd. In the full variant this is so whatever the inventory call
    returned, as long as it returned a response value for the handler to
    go on with. *)
Theorem C1_orders_status_follows_parity :
  forall (draw : Z) (tr : Tracer) (lg : Logger) (res : Tracing.Response)
         (err : option string) (lat : Duration) (w : World),
    let id := order_id draw in
    let st4 := served_status (serve (ExposingHttpRequestMetric.orders draw) w).1 in
    let st5 := served_status (serve (GaugeJob.orders draw) w).1 in
    let st6 := served_status
                 (serve (Tracing.orders (Some tr) lg
                           (Tracing.mkEnv draw (Some res, err) lat)) w).1 in
    ((st4 = Some 200 <-> Z.even id = true) /\
     (st4 = Some 500 <-> Z.odd id = true)) /\
    ((st5 = Some 200 <-> Z.even id = true) /\
     (st5 = Some 500 <-> Z.odd id = true)) /\
    ((st6 = Some 200 <-> Z.even id = true) /\
     (st6 = Some 500 <-> Z.odd id = true)).
Proof.
  intros draw tr lg res err lat w id st4 st5 st6.
  split; [| split]; apply status_iff.
  - apply stage4_orders_status.
  - apply gaugejob_orders_status.
  - apply tracing_orders_status.
Qed.

(** ** The request counter *)

Definition success_labels : list string := ["POST"; "/orders"; "200"].
Definition failure_labels : list string := ["POST"; "/orders"; "500"].

(** Creating a child leaves every count as it was. *)
Lemma child_created_value (m : gmap (list string) nat) (k l : list string) :
  default 0%nat
    (match m !! k with Some _ => m | None => <[k := 0%nat]> m end !! l)
  = default 0%nat (m !! l).
Proof.
  destruct (m !! k) eqn:Hk; [reflexivity |].
  destruct (decide (k = l)) as [<- | Hne].
  - rewrite lookup_insert_eq, Hk. reflexivity.
  - rewrite lookup_insert_ne by exact Hne. reflexivity.
Qed.

(** Incrementing a freshly obtained child adds one to it and to no other. *)
Lemma child_incremented_value (m : gmap (list string) nat)
    (k l : list string) :
  let m' := match m !! k with Some _ => m | None => <[k := 0%nat]> m end in
  default 0%nat (<[k := S (default 0%nat (m' !! k))]> m' !! l)
  = if decide (k = l) then S (default 0%nat (m !! l))
    else default 0%nat (m !! l).
Proof.
  intros m'. destruct (decide (k = l)) as [<- | Hne].
  - rewrite lookup_insert_eq. cbn. f_equal. apply child_created_value.
  - rewrite lookup_insert_ne by exact Hne. apply child_created_value.
Qed.

Lemma stage4_orders_counters (draw : Z) (w : World) (labels : list string) :
  counter_value (serve (ExposingHttpRequestMetric.orders draw) w).2 labels
  = counter_value w labels.
Proof.
  unfold counter_value. go_run.
  destruct (Z.rem _ _ =? 0); go_run; apply child_created_value.
Qed.

Lemma gaugejob_orders_counters (draw : Z) (w : World) (labels : list string) :
  counter_value (serve (GaugeJob.orders draw) w).2 labels
  = counter_value w labels.
Proof.
  unfold counter_value. go_run.
  destruct (Z.rem _ _ =? 0); go_run; apply child_created_value.
Qed.

(** The full variant does count: the child whose code label is the status
    answered goes up by one and every other child stays. *)
Lemma tracing_orders_counters (tr : Tracer) (lg : Logger) (draw : Z)
    (res : Tracing.Response) (err : option string) (lat : Duration)
    (w : World) (labels : list string) :
  let w' := (serve (Tracing.orders (Some tr) lg
                      (Tracing.mkEnv draw (Some res, err) lat)) w).2 in
  let hit := if Z.even (order_id draw) then success_labels
             else failure_labels in
  counter_value w' labels
  = if decide (hit = labels) then S (counter_value w labels)
    else counter_value w labels.
Proof.
  unfold counter_value, order_id. rewrite <- rem2_even.
  go_run. destruct err; go_run; destruct (Z.rem _ _ =? 0); go_run;
    apply child_incremented_value.
Qed.

Lemma tracing_orders_counts_once (tr : Tracer) (lg : Logger) (draw : Z)
    (res : Tracing.Response) (err : option string) (lat : Duration)
    (w : World) :
  let w' := (serve (Tracing.orders (Some tr) lg
                      (Tracing.mkEnv draw (Some res, err) lat)) w).2 in
  if Z.even (order_id draw)
  then counter_value w' success_labels = S (counter_value w success_labels)
       /\ counter_value w' failure_labels = counter_value w failure_labels
  else counter_value w' failure_labels = S (counter_value w failure_labels)
       /\ counter_value w' success_labels = counter_value w success_labels.
Proof.
  intros w'. subst w'.
  destruct (Z.even (order_id draw)) eqn:E; split;
    rewrite tracing_orders_counters, E; reflexivity.
Qed.

(** C2. In the stage-4 program and in the gauge variant the [/orders]
    handler obtains the counter child for its status and then does nothing
    with it: no count changes, for any request. At the generated
    identifier 2 on a fresh process the request is answered 200 while the
    success and the failure counter both still read 0. *)
Theorem C2_stage4_counter_not_incremented :
  (forall (draw : Z) (w : World) (labels : list string),
     counter_value (serve (ExposingHttpRequestMetric.orders draw) w).2 labels
     = counter_value w labels /\
     counter_value (serve (GaugeJob.orders draw) w).2 labels
     = counter_value w labels) /\
  (let r := serve (ExposingHttpRequestMetric.orders 2) initial_world in
   served_status r.1 = Some 200 /\
   counter_value r.2 success_labels = 0%nat /\
   counter_value r.2 failure_labels = 0%nat) /\
  (let r := serve (GaugeJob.orders 2) initial_world in
   served_status r.1 = Some 200 /\
   counter_value r.2 success_labels = 0%nat /\
   counter_value r.2 failure_labels = 0%nat).
Proof.
  split; [| split].
  - intros draw w labels. split.
    + apply stage4_orders_counters.
    + apply gaugejob_orders_counters.
  - cbv zeta. rewrite !stage4_orders_counters, stage4_orders_status.
    repeat split.
  - cbv zeta. rewrite !gaugejob_orders_counters, gaugejob_orders_status.
    repeat split.
Qed.

(** ** The response body *)

(** The response value each handler encodes. *)
Definition stage4_failure : Error :=
  {| Message := "failure, this is simulated by test devs";
     Description := "error" |}.

Definition tracing_failure : Error :=
  {| Message := "failure, this is simulated by devs"; Description := "" |}.

Definition response_of (failure : Error) (id : Z) : ResponseData :=
  {| resp_Data := {| OrderID := id |};
     resp_Error := if Z.even id then zero_Error else failure |}.

Definition body_of (r : ResponseData) : string :=
  Json.Marshal r +:+ Json.newline.

Lemma stage4_orders_body (draw : Z) (w : World) :
  served_body (serve (ExposingHttpRequestMetric.orders draw) w).1
  = Some (body_of (response_of stage4_failure (order_id draw))).
Proof.
  unfold response_of, order_id. rewrite <- rem2_even.
  go_run. destruct (Z.rem _ _ =? 0); go_run; reflexivity.
Qed.

Lemma gaugejob_orders_body (draw : Z) (w : World) :
  served_body (serve (GaugeJob.orders draw) w).1
  = Some (body_of (response_of stage4_failure (order_id draw))).
Proof.
  unfold response_of, order_id. rewrite <- rem2_even.
  go_run. destruct (Z.rem _ _ =? 0); go_run; reflexivity.
Qed.

Lemma tracing_orders_body (tr : Tracer) (lg : Logger) (draw : Z)
    (res : Tracing.Response) (err : option string) (lat : Duration)
    (w : World) :
  served_body
    (serve (Tracing.orders (Some tr) lg
              (Tracing.mkEnv draw (Some res, err) lat)) w).1
  = Some (body_of (response_of tracing_failure (order_id draw))).
Proof.
  unfold response_of, order_id. rewrite <- rem2_even.
  go_run. destruct err; go_run; destruct (Z.rem _ _ =? 0); go_run;
    reflexivity.
Qed.

(** Decoding what was encoded gives the response value back, for every
    identifier the handlers can generate. The thousand bodies of each
    handler are run through encoder and decoder. *)
Definition roundtrips (failure : Error) (id : Z) : bool :=
  bool_decide (Json.Unmarshal (body_of (response_of failure id))
               = Some (response_of failure id)).

Lemma roundtrips_all (failure : Error) :
  forallb (roundtrips failure) (seqZ 0 1000) = true ->
  forall id, 0 <= id < 1000 ->
    Json.Unmarshal (body_of (response_of failure id))
    = Some (response_of failure id).
Proof.
  intros Hall id Hid.
  rewrite forallb_forall in Hall.
  specialize (Hall id).
  unfold roundtrips in Hall. rewrite bool_decide_eq_true in Hall.
  apply Hall. apply list_elem_of_In, elem_of_seqZ. lia.
Qed.

Lemma stage4_roundtrip (id : Z) :
  0 <= id < 1000 ->
  Json.Unmarshal (body_of (response_of stage4_failure id))
  = Some (response_of stage4_failure id).
Proof. apply roundtrips_all. vm_compute. reflexivity. Qed.

Lemma tracing_roundtrip (id : Z) :
  0 <= id < 1000 ->
  Json.Unmarshal (body_of (response_of tracing_failure id))
  = Some (response_of tracing_failure id).
Proof. apply roundtrips_all. vm_compute. reflexivity. Qed.

Lemma order_id_range (draw : Z) : 0 <= order_id draw < 1000.
Proof. apply Intn_result_range. lia. Qed.

Lemma stage4_orders_decoded (draw : Z) (w : World) :
  served_body (serve (ExposingHttpRequestMetric.orders draw) w).1
    ≫= Json.Unmarshal
  = Some (response_of stage4_failure (order_id draw)).
Proof.
  rewrite stage4_orders_body. cbn [mbind option_bind].
  apply stage4_roundtrip, order_id_range.
Qed.

Lemma gaugejob_orders_decoded (draw : Z) (w : World) :
  served_body (serve (GaugeJob.orders draw) w).1 ≫= Json.Unmarshal
  = Some (response_of stage4_failure (order_id draw)).
Proof.
  rewrite gaugejob_orders_body. cbn [mbind option_bind].
  apply stage4_roundtrip, order_id_range.
Qed.

Lemma tracing_orders_decoded (tr : Tracer) (lg : Logger) (draw : Z)
    (res : Tracing.Response) (err : option string) (lat : Duration)
    (w : World) :
  served_body
    (serve (Tracing.orders (Some tr) lg
              (Tracing.mkEnv draw (Some res, err) lat)) w).1
    ≫= Json.Unmarshal
  = Some (response_of tracing_failure (order_id draw)).
Proof.
  rewrite tracing_orders_body. cbn [mbind option_bind].
  apply tracing_roundtrip, order_id_range.
Qed.

(** The parts of the round trip that hold: the decoded identifier is the
    generated one and the decoded error carries a message exactly for odd
    identifiers. *)
Lemma tracing_orders_roundtrip (tr : Tracer) (lg : Logger) (draw : Z)
    (res : Tracing.Response) (err : option string) (lat : Duration)
    (w : World) :
  exists r : ResponseData,
    served_body
      (serve (Tracing.orders (Some tr) lg
                (Tracing.mkEnv draw (Some res, err) lat)) w).1
      ≫= Json.Unmarshal = Some r /\
    OrderID (resp_Data r) = order_id draw /\
    (Message (resp_Error r) <> "" <-> Z.odd (order_id draw) = true).
Proof.
  exists (response_of tracing_failure (order_id draw)).
  split; [apply tracing_orders_decoded |].
  split; [reflexivity |].
  unfold response_of. cbn [resp_Error]. rewrite even_or_odd.
  destruct (Z.even (order_id draw)); cbn; split; intros H;
    try reflexivity; try discriminate; try (exfalso; apply H; reflexivity).
Qed.

(** The body written for the identifier 2, which is even and has the zero
    [Error]. *)
Definition body_for_2 : string :=
  "{" +:+ Json.quoted "data" +:+ ":{" +:+ Json.quoted "order_id" +:+ ":2},"
  +:+ Json.quoted "error" +:+ ":{}}" +:+ Json.newline.

(** C3. The encoder never leaves the [error] member out: [omitempty] on a
    struct-typed field has no effect, since no struct value is empty to
    the encoder. Every response object has the key [error]; for the even
    identifier 2 each of the three handlers writes
    [{"data":{"order_id":2},"error":{}}] and a newline. *)
Theorem C3_empty_error_object_is_encoded :
  (forall r : ResponseData,
     Json.has_member "error" (Json.marshal (Json.reflect_ResponseData r))
     = true) /\
  (forall (tr : Tracer) (lg : Logger) (res : Tracing.Response)
          (err : option string) (lat : Duration) (w : World),
     served_body
       (serve (Tracing.orders (Some tr) lg
                 (Tracing.mkEnv 2 (Some res, err) lat)) w).1
     = Some body_for_2) /\
  (forall w : World,
     served_body (serve (ExposingHttpRequestMetric.orders 2) w).1
     = Some body_for_2 /\
     served_body (serve (GaugeJob.orders 2) w).1 = Some body_for_2) /\
  (Json.parse body_for_2
   = Some (Json.JObj [("data", Json.JObj [("order_id", Json.JNum 2)]);
                      ("error", Json.JObj [])])).
Proof.
  split; [| split; [| split]].
  - intros [[id] [m d]]. reflexivity.
  - intros. rewrite tracing_orders_body. reflexivity.
  - intros. rewrite stage4_orders_body, gaugejob_orders_body.
    split; reflexivity.
  - vm_compute. reflexivity.
Qed.

(** C10. The generated identifier lies in [0, 1000), and the body of every
    [/orders] response of the three programs decodes to a response value
    whose [order_id] is that identifier. *)
Theorem C10_order_id_in_range :
  forall (draw : Z) (tr : Tracer) (lg : Logger) (res : Tracing.Response)
         (err : option string) (lat : Duration) (w : World),
    0 <= order_id draw < 1000 /\
    exists r4 r5 r6 : ResponseData,
      served_body (serve (ExposingHttpRequestMetric.orders draw) w).1
        ≫= Json.Unmarshal = Some r4 /\
      served_body (serve (GaugeJob.orders draw) w).1
        ≫= Json.Unmarshal = Some r5 /\
      served_body
        (serve (Tracing.orders (Some tr) lg
                  (Tracing.mkEnv draw (Some res, err) lat)) w).1
        ≫= Json.Unmarshal = Some r6 /\
      OrderID (resp_Data r4) = order_id draw /\
      OrderID (resp_Data r5) = order_id draw /\
      OrderID (resp_Data r6) = order_id draw /\
      0 <= OrderID (resp_Data r4) < 1000 /\
      0 <= OrderID (resp_Data r5) < 1000 /\
      0 <= OrderID (resp_Data r6) < 1000.
Proof.
  intros draw tr lg res err lat w.
  pose proof (order_id_range draw) as Hr.
  split; [exact Hr |].
  exists (response_of stage4_failure (order_id draw)),
         (response_of stage4_failure (order_id draw)),
         (response_of tracing_failure (order_id draw)).
  rewrite stage4_orders_decoded, gaugejob_orders_decoded,
    tracing_orders_decoded.
  cbn [response_of resp_Data OrderID].
  repeat split; lia.
Qed.

(** ** The inventory call *)

Ltac flatten_events :=
  unfold events; go_run; rewrite ?fmap_app; cbn [fmap list_fmap snd];
  rewrite <- ?app_assoc; cbn [app].

(** A call that returns a response value, with or without an error, lets
    the step return: the body is closed and the span finished. *)
Lemma callInventoryService_returns (tr : Tracer) (draw : Z)
    (res : Tracing.Response) (err : option string) (lat : Duration)
    (ctx : Context) (w : World) :
  (Tracing.callInventoryService (Some tr)
     (Tracing.mkEnv draw (Some res, err) lat) ctx w).1 = Returned tt.
Proof. destruct ctx, err; go_run; reflexivity. Qed.

(** A call that fails without a response value makes the step panic, after
    the error was logged; the span is finished on the way out. *)
Lemma callInventoryService_panics (tr : Tracer) (draw : Z) (e : string)
    (lat : Duration) (parent : Span) (w : World) :
  let r := Tracing.callInventoryService (Some tr)
             (Tracing.mkEnv draw (None, Some e) lat) (Some parent) w in
  r.1 = Panicked nil_dereference /\
  events r.2 =
    events w ++
    [EvSpanStart "3_http_get_inventory_service_check_stock"
       (Some (span_name parent));
     EvInject "3_http_get_inventory_service_check_stock";
     EvHTTPDo "GET" "http://localhost:2000/checkstock";
     EvLog (logger_sink (slog_default w)) LevelError
       "failed to call inventory service" (logger_attrs (slog_default w));
     EvSpanFinish "3_http_get_inventory_service_check_stock"].
Proof. split; [go_run; reflexivity | flatten_events; reflexivity]. Qed.

(** C4. When the inventory call returns an error and no response, the
    child span is finished and the error is logged, but the step then
    panics on [res.Body] and the panic ends the request: the handler never
    reaches the decision, nothing is counted or observed, and no status
    and no body are written. *)
Theorem C4_failed_inventory_call_aborts_request :
  forall (tr : Tracer) (lg : Logger) (draw : Z) (e : string)
         (lat : Duration) (w : World),
    let r := serve (Tracing.orders (Some tr) lg
                      (Tracing.mkEnv draw (None, Some e) lat)) w in
    r.1 = Aborted fresh_writer /\
    served_status r.1 = None /\
    counters r.2 = counters w /\
    summary r.2 = summary w /\
    histogram r.2 = histogram w /\
    events r.2 =
      events w ++
      [EvSpanStart "creating order" None;
       EvSpanStart "1_validating_order_data" (Some "creating order");
       EvSleep (200 * Millisecond);
       EvSpanFinish "1_validating_order_data";
       EvSpanStart "2_inserting_order_data_to_db" (Some "creating order");
       EvSleep (500 * Millisecond);
       EvLog (logger_sink lg) LevelInfo "inserting to db..."
         (logger_attrs lg);
       EvSpanFinish "2_inserting_order_data_to_db";
       EvSpanStart "3_http_get_inventory_service_check_stock"
         (Some "creating order");
       EvInject "3_http_get_inventory_service_check_stock";
       EvHTTPDo "GET" "http://localhost:2000/checkstock";
       EvLog (logger_sink (slog_default w)) LevelError
         "failed to call inventory service" (logger_attrs (slog_default w));
       EvSpanFinish "3_http_get_inventory_service_check_stock";
       EvSpanFinish "creating order"].
Proof.
  intros tr lg draw e lat w r. subst r.
  repeat split; try (go_run; reflexivity).
  flatten_events. reflexivity.
Qed.

(** ** Summary and histogram *)

(** The time the response branch takes: the simulated latency of the
    branch taken. *)
Definition branch_duration (id : Z) : Duration :=
  if Z.even id then 100 * Millisecond else 400 * Millisecond.

(** The reading of the claim: both instruments receive the time the whole
    handler took. *)
Definition observes_whole_handling (tracer : option Tracer) (lg : Logger)
    (env : Tracing.Env) (w : World) : Prop :=
  let w' := (serve (Tracing.orders tracer lg env) w).2 in
  summary w' = summary w ++ [now w' - now w] /\
  histogram w' = histogram w ++ [now w' - now w].

(** C6, as stated, fails: with the identifier 2, a prompt and successful
    inventory call and a fresh process, the handler takes 800 ms and both
    instruments are given 100 ms. *)
Lemma C6_observation_is_not_whole_handling :
  ~ observes_whole_handling (Some (mkTracer "golang_app"))
      (Logger_With logstash_logger [("environment", "dev")])
      (Tracing.mkEnv 2 (Some (Tracing.mkResponse 200), None) 0)
      initial_world.
Proof.
  unfold observes_whole_handling. intros [H _].
  vm_compute in H. discriminate H.
Qed.

(** C6 (amended). For every [/orders] request whose inventory call gave
    the handler a response value, summary and histogram each receive
    exactly one observation, the same for both: the time elapsed since
    [startTime], which is read after the validation, persistence and
    inventory steps. It is the duration of the response branch, while the
    handler as a whole takes that plus the 200 ms and 500 ms of the first
    two steps plus the latency of the inventory call. *)
Theorem C6_observes_response_branch_only :
  forall (tr : Tracer) (lg : Logger) (draw : Z) (res : Tracing.Response)
         (err : option string) (lat : Duration) (w : World),
    let w' := (serve (Tracing.orders (Some tr) lg
                        (Tracing.mkEnv draw (Some res, err) lat)) w).2 in
    let d := branch_duration (order_id draw) in
    summary w' = summary w ++ [d] /\
    histogram w' = histogram w ++ [d] /\
    now w' - now w
    = 200 * Millisecond + 500 * Millisecond + Z.max 0 lat + d.
Proof.
  intros tr lg draw res err lat w w' d. subst w' d.
  unfold branch_duration, order_id. rewrite <- rem2_even.
  go_run.
  destruct err; go_run; destruct (Z.rem _ _ =? 0); go_run;
    unfold Millisecond;
    (repeat split; [f_equal; f_equal; lia | f_equal; f_equal; lia | lia]).
Qed.

(** ** [/internal/orders] *)

(** C9. The [/internal/orders] handler logs the synthetic payment failure
    at error level and answers 200 with the body [{"data":{}}], whatever
    the request and the state of the process. *)
Theorem C9_internal_orders_always_200 :
  forall (tr : Tracer) (lg : Logger) (w : World),
    let r := serve (Tracing.internal_orders (Some tr) lg) w in
    r.1 = Responded 200 ∅
            ("{" +:+ Json.dquote +:+ "data" +:+ Json.dquote +:+ ":{}}") /\
    events r.2 =
      events w ++
      [EvSpanStart "creating order" None;
       EvLog (logger_sink lg) LevelError "failing validating payment"
         (logger_attrs lg ++
          [("tracer_id", "trace-id-a"); ("request_id", "request-id-sample");
           ("customer_id", "customer-1");
           ("error",
            "payment gateway not responding, with http status code 502");
           ("product_id", "product-a"); ("order_id", "order-id-sample")]);
       EvCounterInc ["GET"; "/internal/orders"; "200"];
       EvSpanFinish "creating order"].
Proof.
  intros tr lg w r. subst r. split.
  - go_run. reflexivity.
  - flatten_events. reflexivity.
Qed.

(** ** Start-up and shutdown of the full variant *)

Definition startup_events : list Event :=
  [EvSetGlobalTracer true;
   EvDial "tcp" "localhost:5000";
   EvLog Stderr LevelInfo "connected to logstash successfully" [];
   EvLog Logstash LevelInfo "starting http server ..."
     [("environment", "dev")];
   EvSignalNotify;
   EvGo Tracing.simulation_job;
   EvHandle "/metrics"; EvHandle "/ping"; EvHandle "/orders";
   EvHandle "/internal/orders";
   EvGo Tracing.listen_and_serve].

Definition shutdown_report (shutdownErr : option string) : string :=
  match shutdownErr with
  | Some e => "failled to shutdown http server due to error: " +:+ e
  | None => "http server stopped gracefully"
  end.

(** C7. With tracer and log sink connected, [main] serves until the
    termination signal and then, in this order: reports the signal,
    cancels the simulation job, calls [server.Shutdown] under a 5-second
    deadline, reports the result, sleeps 2 seconds, runs its deferred
    calls and returns. The three reports are made with package [log]
    after [slog.SetDefault], so they go to Logstash. The drain takes as
    long as the requests in flight need, but at most the 5 seconds of the
    deadline; when the deadline passes first, the failure is reported and
    the process goes on to the 2-second sleep all the same. The process
    exits with status 0 in every case, at most 7 seconds after the
    signal. *)
Theorem C7_shutdown_sequence :
  forall (t : Tracer) (c : Closer) (listenerErr : option string)
         (drain : Duration) (w : World),
    let r := Tracing.run
               (Tracing.mkStartup (Tracing.TracerReady t c) None
                  listenerErr drain) w in
    let in_time := Tracing.deadline_met drain (5 * Second) in
    let shutdownErr :=
      if in_time then listenerErr else Some "context deadline exceeded" in
    let drained := if in_time then Z.max 0 drain else 5 * Second in
    r.1 = 0 /\
    events r.2 =
      events w ++ startup_events ++
      [EvSignalReceived;
       EvLog Logstash LevelInfo
         "termination signal received, shutting down..." [];
       EvCancel Tracing.simulation_job;
       EvServerShutdown (5 * Second);
       EvLog Logstash LevelInfo (shutdown_report shutdownErr) [];
       EvSleep (2 * Second);
       EvCancel "shutdown context";
       EvCancel Tracing.simulation_job;
       EvConnClose;
       EvCloserClose] /\
    trace r.2 =
      trace w ++
      ((fun e => (now w, e)) <$>
         startup_events ++
         [EvSignalReceived;
          EvLog Logstash LevelInfo
            "termination signal received, shutting down..." [];
          EvCancel Tracing.simulation_job;
          EvServerShutdown (5 * Second)]) ++
      [(now w + drained,
        EvLog Logstash LevelInfo (shutdown_report shutdownErr) []);
       (now w + drained, EvSleep (2 * Second));
       (now w + drained + 2 * Second, EvCancel "shutdown context");
       (now w + drained + 2 * Second, EvCancel Tracing.simulation_job);
       (now w + drained + 2 * Second, EvConnClose);
       (now w + drained + 2 * Second, EvCloserClose)] /\
    now r.2 = now w + drained + 2 * Second /\
    0 <= drained <= 5 * Second.
Proof.
  intros t c listenerErr drain w r in_time shutdownErr drained.
  subst r shutdownErr drained in_time.
  destruct w as [n cs gs sm hs wr sl tr].
  split; [| split; [| split; [| split]]].
  - go_run. destruct (Tracing.deadline_met drain (5 * Second));
      [destruct listenerErr |]; go_run; reflexivity.
  - flatten_events. destruct (Tracing.deadline_met drain (5 * Second));
      [destruct listenerErr |]; flatten_events; reflexivity.
  - go_run. destruct (Tracing.deadline_met drain (5 * Second));
      [destruct listenerErr |]; go_run; rewrite <- ?app_assoc; reflexivity.
  - go_run. destruct (Tracing.deadline_met drain (5 * Second));
      [destruct listenerErr |]; go_run; reflexivity.
  - destruct (Tracing.deadline_met drain (5 * Second)) eqn:E.
    + apply Z.leb_le in E. unfold Second, Millisecond in *. lia.
    + unfold Second, Millisecond. lia.
Qed.

(** A connection that could not be established: the tracer's or the log
    sink's. *)
Definition connection_failed (s : Tracing.Startup) : Prop :=
  (exists e, Tracing.tracer_setup s = Tracing.TracerFailed e) \/
  is_Some (Tracing.dial_error s).

Definition never_served (new : list Event) : Prop :=
  (EvGo Tracing.listen_and_serve ∉ new) /\ (forall p, EvHandle p ∉ new).

Ltac absent_from_list :=
  repeat (apply not_elem_of_cons; split; [discriminate |]);
  apply not_elem_of_nil.

(** C8. If the tracer cannot be built or the dial to Logstash fails, the
    process ends with a non-zero status before any handler is registered
    and before the server is started. The failed dial ends it through
    [log.Fatalf]; the failed tracer is only logged by [InitTracer], and
    [main] then panics on the nil closer it got back. *)
Theorem C8_connection_failure_aborts_startup :
  forall (s : Tracing.Startup) (w : World),
    connection_failed s ->
    let r := Tracing.run s w in
    r.1 <> 0 /\
    exists new, events r.2 = events w ++ new /\ never_served new.
Proof.
  intros [ts derr lerr drain] w Hfail r. subst r.
  destruct ts as [t c | e].
  - destruct derr as [e |].
    + split; [go_run; discriminate |].
      eexists. split; [flatten_events; reflexivity |].
      split; [| intros p]; absent_from_list.
    + exfalso. destruct Hfail as [[e He] | [e He]]; discriminate He.
  - split; [go_run; discriminate |].
    eexists. split; [flatten_events; reflexivity |].
    split; [| intros p]; absent_from_list.
Qed.

Lemma C8_connection_failure_aborts_startup_witness :
  connection_failed
    (Tracing.mkStartup (Tracing.TracerFailed "no agent") None None 0) /\
  (let r := Tracing.run
              (Tracing.mkStartup (Tracing.TracerFailed "no agent") None None 0)
              initial_world in
   r.1 <> 0 /\
   exists new, events r.2 = events initial_world ++ new /\ never_served new).
Proof.
  split.
  - left. exists "no agent". reflexivity.
  - apply (C8_connection_failure_aborts_startup
             (Tracing.mkStartup (Tracing.TracerFailed "no agent") None None 0)
             initial_world).
    left. exists "no agent". reflexivity.
Defined.

(** The two ways start-up fails, each with its exit status. *)
Lemma failed_dial_is_fatal (t : Tracer) (c : Closer) (e : string)
    (lerr : option string) (drain : Duration) (w : World) :
  (Tracing.run
     (Tracing.mkStartup (Tracing.TracerReady t c) (Some e) lerr drain)
     w).1 = 1.
Proof. go_run. reflexivity. Qed.

Lemma failed_tracer_panics (e : string) (derr lerr : option string)
    (drain : Duration) (w : World) :
  (Tracing.main
     (Tracing.mkStartup (Tracing.TracerFailed e) derr lerr drain) w).1
  = Panicked nil_dereference.
Proof. go_run. reflexivity. Qed.

(** [InitTracer] itself returns on a failed tracer; it does not end the
    process. *)
Lemma InitTracer_returns_on_failure (e : string) (w : World) :
  (Tracing.InitTracer (Tracing.TracerFailed e) Tracing.serviceName w).1
  = Returned (None, None).
Proof. go_run. reflexivity. Qed.

(** With both connections established the server is started. *)
Lemma connected_startup_serves (t : Tracer) (c : Closer)
    (lerr : option string) (drain : Duration) (w : World) :
  EvGo Tracing.listen_and_serve
  ∈ events (Tracing.run
              (Tracing.mkStartup (Tracing.TracerReady t c) None lerr drain)
              w).2.
Proof.
  flatten_events.
  destruct (Tracing.deadline_met drain (5 * Second)); [destruct lerr |];
    flatten_events;
    apply elem_of_app; right; unfold Tracing.listen_and_serve;
    repeat (first [apply list_elem_of_here | apply list_elem_of_further]).
Qed.

(** ** The simulation job and its cancellation *)

Definition gauge_updates_before (c : Z) (new : list (Z * Event)) : Prop :=
  forall t l v, (t, EvGaugeAdd l v) ∈ new -> t < c.

Section SimulationJob.

(** What the two versions of the goroutine share: a loop over [step],
    where a step at an instant from [c] on sees the cancellation,
    updates nothing and ends the loop without any time passing, and a
    step before [c] updates the gauge at that instant and returns one
    tick later. *)
Variable tick : Duration.
Hypothesis tick_pos : 0 < tick.
Variable step : option Z -> Z -> Go bool.
Variable loop : option Z -> list Z -> Go bool.

Hypothesis loop_nil : forall c w, loop c [] w = (Returned true, w).
Hypothesis loop_cons : forall c d ds w,
  loop c (d :: ds) w
  = match step c d w with
    | (Returned true, w') => loop c ds w'
    | (Returned false, w') => (Returned false, w')
    | (Panicked m, w') => (Panicked m, w')
    | (Exited x, w') => (Exited x, w')
    end.

Hypothesis step_cancelled : forall c d w,
  c <= now w ->
  exists w' new,
    step (Some c) d w = (Returned false, w') /\ now w' = now w /\
    trace w' = trace w ++ new /\ gauge_updates_before c new.

Hypothesis step_running : forall c d w,
  now w < c ->
  exists w' new,
    step (Some c) d w = (Returned true, w') /\ now w' = now w + tick /\
    trace w' = trace w ++ new /\ gauge_updates_before c new.

Lemma gauge_updates_before_app (c : Z) (l1 l2 : list (Z * Event)) :
  gauge_updates_before c l1 -> gauge_updates_before c l2 ->
  gauge_updates_before c (l1 ++ l2).
Proof.
  intros H1 H2 t l v Hin. apply elem_of_app in Hin as [Hin | Hin].
  - exact (H1 t l v Hin).
  - exact (H2 t l v Hin).
Qed.

(** However long the loop runs, none of its gauge updates is stamped at
    or after the cancellation. *)
Lemma loop_updates_before_cancel (c : Z) (draws : list Z) :
  forall w, exists new,
    trace (loop (Some c) draws w).2 = trace w ++ new /\
    gauge_updates_before c new.
Proof.
  induction draws as [| d ds IH]; intros w.
  - rewrite loop_nil. exists []. split.
    + cbn. rewrite app_nil_r. reflexivity.
    + intros t l v Hin. apply elem_of_nil in Hin. destruct Hin.
  - rewrite loop_cons.
    destruct (Z_lt_le_dec (now w) c) as [Hlt | Hge].
    + destruct (step_running c d w Hlt) as (w' & new & -> & _ & Ht & Hg).
      destruct (IH w') as (new' & Ht' & Hg').
      exists (new ++ new'). split.
      * rewrite Ht', Ht, app_assoc. reflexivity.
      * apply gauge_updates_before_app; assumption.
    + destruct (step_cancelled c d w Hge) as (w' & new & -> & _ & Ht & Hg).
      exists new. split; assumption.
Qed.

(** Given draws for enough iterations, the loop ends, and it ends at the
    first loop head at or after the cancellation: less than one tick
    after it, and a whole number of ticks after the start. *)
Lemma loop_stops_within_one_tick (c : Z) (draws : list Z) :
  forall w,
    now w <= c ->
    c - now w + tick <= Z.of_nat (length draws) * tick ->
    exists w' k,
      loop (Some c) draws w = (Returned false, w') /\
      c <= now w' < c + tick /\
      0 <= k /\ now w' = now w + k * tick.
Proof.
  induction draws as [| d ds IH]; intros w Hle Hfuel.
  - cbn in Hfuel. lia.
  - rewrite loop_cons.
    destruct (Z_lt_le_dec (now w) c) as [Hlt | Hge].
    + destruct (step_running c d w Hlt) as (w1 & new & -> & Hn & _ & _).
      destruct (Z_lt_le_dec (now w1) c) as [Hlt1 | Hge1].
      * destruct (IH w1) as (w' & k & Hrun & Hb & Hk & Hnow).
        { lia. }
        { rewrite Hn. cbn [length] in Hfuel. lia. }
        exists w', (k + 1). repeat split; try assumption; lia.
      * destruct ds as [| d' ds'].
        { cbn in Hfuel. lia. }
        rewrite loop_cons.
        destruct (step_cancelled c d' w1 Hge1)
          as (w2 & new2 & -> & Hn2 & _ & _).
        exists w2, 1. repeat split; lia.
    + destruct (step_cancelled c d w Hge) as (w1 & new & -> & Hn & _ & _).
      exists w1, 0. repeat split; lia.
Qed.

End SimulationJob.

Ltac job_head :=
  cbv beta iota zeta delta
    [Tracing.job_step GaugeJob.job_step bind time_Now now].

Ltac no_gauge_update Hin :=
  repeat (apply elem_of_cons in Hin as [Hin | Hin];
          [first [discriminate Hin | injection Hin as -> _ _; lia] |]);
  apply elem_of_nil in Hin; destruct Hin.

Lemma tracing_step_cancelled (c d : Z) (w : World) :
  c <= now w ->
  exists w' new,
    Tracing.job_step (Some c) d w = (Returned false, w') /\ now w' = now w /\
    trace w' = trace w ++ new /\ gauge_updates_before c new.
Proof.
  destruct w as [n cs gs sm hs wr sl tr]. cbn [now trace]. intros Hc.
  assert (ctx_Done (Some c) n = true) as E
    by (apply Z.leb_le; exact Hc).
  job_head. rewrite E. eexists. eexists.
  split; [go_run; reflexivity |].
  split; [reflexivity |]. split; [reflexivity |].
  intros t l v Hin. no_gauge_update Hin.
Qed.

Lemma tracing_step_running (c d : Z) (w : World) :
  now w < c ->
  exists w' new,
    Tracing.job_step (Some c) d w = (Returned true, w') /\
    now w' = now w + 1 * Second /\
    trace w' = trace w ++ new /\ gauge_updates_before c new.
Proof.
  destruct w as [n cs gs sm hs wr sl tr]. cbn [now trace]. intros Hc.
  assert (ctx_Done (Some c) n = false) as E
    by (apply Z.leb_gt; exact Hc).
  job_head. rewrite E. eexists. eexists.
  split; [go_run; reflexivity |].
  split; [cbn [now]; unfold Second, Millisecond; lia |].
  split; [cbn [trace]; rewrite <- app_assoc; reflexivity |].
  intros t l v Hin. no_gauge_update Hin.
Qed.

Lemma tracing_job_cons (c : option Z) (d : Z) (ds : list Z) (w : World) :
  Tracing.job c (d :: ds) w
  = match Tracing.job_step c d w with
    | (Returned true, w') => Tracing.job c ds w'
    | (Returned false, w') => (Returned false, w')
    | (Panicked m, w') => (Panicked m, w')
    | (Exited x, w') => (Exited x, w')
    end.
Proof.
  cbn [Tracing.job]. unfold bind.
  destruct (Tracing.job_step c d w) as [[[|] | m | x] w']; reflexivity.
Qed.

Lemma gauge_step_cancelled (c d : Z) (w : World) :
  c <= now w ->
  exists w' new,
    GaugeJob.job_step (Some c) d w = (Returned false, w') /\ now w' = now w /\
    trace w' = trace w ++ new /\ gauge_updates_before c new.
Proof.
  destruct w as [n cs gs sm hs wr sl tr]. cbn [now trace]. intros Hc.
  assert (ctx_Done (Some c) n = true) as E
    by (apply Z.leb_le; exact Hc).
  job_head. rewrite E. eexists. eexists.
  split; [go_run; reflexivity |].
  split; [reflexivity |]. split; [reflexivity |].
  intros t l v Hin. no_gauge_update Hin.
Qed.

Lemma gauge_step_running (c d : Z) (w : World) :
  now w < c ->
  exists w' new,
    GaugeJob.job_step (Some c) d w = (Returned true, w') /\
    now w' = now w + 300 * Millisecond /\
    trace w' = trace w ++ new /\ gauge_updates_before c new.
Proof.
  destruct w as [n cs gs sm hs wr sl tr]. cbn [now trace]. intros Hc.
  assert (ctx_Done (Some c) n = false) as E
    by (apply Z.leb_gt; exact Hc).
  job_head. rewrite E. eexists. eexists.
  split; [go_run; reflexivity |].
  split; [cbn [now]; unfold Millisecond; lia |].
  split; [cbn [trace]; rewrite <- !app_assoc; reflexivity |].
  intros t l v Hin. no_gauge_update Hin.
Qed.

Lemma gauge_job_cons (c : option Z) (d : Z) (ds : list Z) (w : World) :
  GaugeJob.job c (d :: ds) w
  = match GaugeJob.job_step c d w with
    | (Returned true, w') => GaugeJob.job c ds w'
    | (Returned false, w') => (Returned false, w')
    | (Panicked m, w') => (Panicked m, w')
    | (Exited x, w') => (Exited x, w')
    end.
Proof.
  cbn [GaugeJob.job]. unfold bind.
  destruct (GaugeJob.job_step c d w) as [[[|] | m | x] w']; reflexivity.
Qed.

(** The reading of the claim: a sleep in progress is cut short by the
    cancellation, so that the goroutine returns at the instant of the
    cancellation. *)
Definition sleep_is_interruptible (job : option Z -> list Z -> Go bool)
    : Prop :=
  forall (c : Z) (draws : list Z) (w w' : World),
    now w <= c ->
    job (Some c) draws w = (Returned false, w') ->
    now w' = c.

(** C5, as stated, fails: started at 0 and cancelled one millisecond
    later, the job of the full variant sleeps its whole second and returns
    at 1 s. *)
Lemma C5_sleep_is_not_interrupted : ~ sleep_is_interruptible Tracing.job.
Proof.
  intros H.
  specialize (H (1 * Millisecond) [5; 6] initial_world
                (Tracing.job (Some (1 * Millisecond)) [5; 6] initial_world).2).
  assert (now (Tracing.job (Some (1 * Millisecond)) [5; 6] initial_world).2
          = 1 * Millisecond) as Hnow.
  { apply H; [vm_compute; discriminate | vm_compute; reflexivity]. }
  vm_compute in Hnow. discriminate Hnow.
Qed.

(** C5 (amended). The goroutine tests the cancellation only at the head of
    its loop and then sleeps a whole tick, so a cancellation that arrives
    during a sleep is noticed when the sleep is over. From the
    cancellation on it makes no gauge update, and it returns at the first
    loop head at or after the cancellation, less than one tick interval
    after it (1 s in the full variant, 300 ms in the gauge variant). *)
Theorem C5_job_stops_at_next_loop_head :
  (forall (c : Z) (draws : list Z) (w : World),
     now w <= c ->
     c - now w + 1 * Second <= Z.of_nat (length draws) * (1 * Second) ->
     exists w' k new,
       Tracing.job (Some c) draws w = (Returned false, w') /\
       c <= now w' < c + 1 * Second /\
       0 <= k /\ now w' = now w + k * (1 * Second) /\
       trace w' = trace w ++ new /\ gauge_updates_before c new) /\
  (forall (c : Z) (draws : list Z) (w : World),
     now w <= c ->
     c - now w + 300 * Millisecond
       <= Z.of_nat (length draws) * (300 * Millisecond) ->
     exists w' k new,
       GaugeJob.job (Some c) draws w = (Returned false, w') /\
       c <= now w' < c + 300 * Millisecond /\
       0 <= k /\ now w' = now w + k * (300 * Millisecond) /\
       trace w' = trace w ++ new /\ gauge_updates_before c new).
Proof.
  split; intros c draws w Hle Hfuel.
  - destruct (loop_stops_within_one_tick (1 * Second) eq_refl
                Tracing.job_step Tracing.job tracing_job_cons
                tracing_step_cancelled tracing_step_running
                c draws w Hle Hfuel) as (w' & k & Hrun & Hb & Hk & Hnow).
    destruct (loop_updates_before_cancel (1 * Second)
                Tracing.job_step Tracing.job
                (fun _ _ => eq_refl) tracing_job_cons
                tracing_step_cancelled tracing_step_running c draws w)
      as (new & Ht & Hg).
    rewrite Hrun in Ht. exists w', k, new. repeat split; tauto || lia.
  - destruct (loop_stops_within_one_tick (300 * Millisecond) eq_refl
                GaugeJob.job_step GaugeJob.job gauge_job_cons
                gauge_step_cancelled gauge_step_running
                c draws w Hle Hfuel) as (w' & k & Hrun & Hb & Hk & Hnow).
    destruct (loop_updates_before_cancel (300 * Millisecond)
                GaugeJob.job_step GaugeJob.job
                (fun _ _ => eq_refl) gauge_job_cons
                gauge_step_cancelled gauge_step_running c draws w)
      as (new & Ht & Hg).
    rewrite Hrun in Ht. exists w', k, new. repeat split; tauto || lia.
Qed.

Lemma C5_job_stops_at_next_loop_head_witness :
  now initial_world <= 1 * Millisecond /\
  1 * Millisecond - now initial_world + 1 * Second
    <= Z.of_nat (length [5; 6]) * (1 * Second) /\
  exists w' k new,
    Tracing.job (Some (1 * Millisecond)) [5; 6] initial_world
    = (Returned false, w') /\
    1 * Millisecond <= now w' < 1 * Millisecond + 1 * Second /\
    0 <= k /\ now w' = now initial_world + k * (1 * Second) /\
    trace w' = trace initial_world ++ new /\
    gauge_updates_before (1 * Millisecond) new.
Proof.
  split; [unfold Millisecond; simpl; lia |].
  split; [unfold Second, Millisecond; simpl; lia |].
  apply (proj1 C5_job_stops_at_next_loop_head
           (1 * Millisecond) [5; 6] initial_world).
  - unfold Millisecond. simpl. lia.
  - unfold Second, Millisecond. simpl. lia.
Defined.

(** * Further properties of the handlers *)

(** ** Spans of one request *)

(** The span events of a trace are well nested when every span is a child
    of the span open at its start (a root when none is open), every finish
    closes the span opened last, and no span is left open at the end. *)
Fixpoint well_nested (open : list string) (evs : list Event) : bool :=
  match evs with
  | [] => bool_decide (open = [])
  | EvSpanStart name parent :: rest =>
      bool_decide (parent = head open) && well_nested (name :: open) rest
  | EvSpanFinish name :: rest =>
      match open with
      | top :: below => bool_decide (name = top) && well_nested below rest
      | [] => false
      end
  | _ :: rest => well_nested open rest
  end.

Definition is_span_event (e : Event) : bool :=
  match e with
  | EvSpanStart _ _ | EvSpanFinish _ => true
  | _ => false
  end.

Definition span_events (evs : list Event) : list Event :=
  List.filter is_span_event evs.

(** X1. Whatever the draw and whatever the inventory call returns, the panic
    on a missing response included, an [/orders] request starts and
    finishes exactly these spans, in this order: the root [creating
    order]; then, each a child of the root and each finished before the
    next starts, [1_validating_order_data],
    [2_inserting_order_data_to_db] and
    [3_http_get_inventory_service_check_stock]; the root is finished
    last. The spans are well nested and none is left open. *)
Theorem orders_spans_well_nested :
  forall (tr : Tracer) (lg : Logger) (env : Tracing.Env) (w : World),
    exists new,
      events (serve (Tracing.orders (Some tr) lg env) w).2
      = events w ++ new /\
      span_events new
      = [EvSpanStart "creating order" None;
         EvSpanStart "1_validating_order_data" (Some "creating order");
         EvSpanFinish "1_validating_order_data";
         EvSpanStart "2_inserting_order_data_to_db" (Some "creating order");
         EvSpanFinish "2_inserting_order_data_to_db";
         EvSpanStart "3_http_get_inventory_service_check_stock"
           (Some "creating order");
         EvSpanFinish "3_http_get_inventory_service_check_stock";
         EvSpanFinish "creating order"] /\
      well_nested [] new = true.
Proof.
  intros tr lg [d [[res |] [e |]] lat] w.
  1, 2: destruct (Z.rem (Intn_result d 1000) 2 =? 0) eqn:E.
  all: eexists; (split; [flatten_events; rewrite ?E; flatten_events;
                         reflexivity | split; reflexivity]).
Qed.

(** ** When a request is aborted *)

(** X2. An [/orders] request ends without a response exactly when
    [client.Do] handed back no response value; with a response value, an
    accompanying error never prevents the answer. *)
Theorem orders_aborted_iff_no_response :
  forall (tr : Tracer) (lg : Logger) (env : Tracing.Env) (w : World),
    let r := serve (Tracing.orders (Some tr) lg env) w in
    (served_status r.1 = None <-> (Tracing.inventory_reply env).1 = None) /\
    ((Tracing.inventory_reply env).1 = None ->
     r.1 = Aborted fresh_writer /\
     counters r.2 = counters w /\ summary r.2 = summary w /\
     histogram r.2 = histogram w /\ gauges r.2 = gauges w).
Proof.
  intros tr lg [d [[res |] err] lat] w r; subst r.
  - split.
    + rewrite tracing_orders_status. cbn. split; discriminate.
    + cbn. discriminate.
  - split.
    + destruct err; go_run; split; reflexivity.
    + intros _. destruct err; go_run; repeat split; reflexivity.
Qed.

Lemma orders_aborted_iff_no_response_witness :
  (Tracing.inventory_reply (Tracing.mkEnv 7 (None, None) 0)).1 = None /\
  (let r := serve (Tracing.orders (Some (mkTracer "golang_app"))
                     logstash_logger (Tracing.mkEnv 7 (None, None) 0))
                  initial_world in
   r.1 = Aborted fresh_writer /\
   counters r.2 = counters initial_world /\
   summary r.2 = summary initial_world /\
   histogram r.2 = histogram initial_world /\
   gauges r.2 = gauges initial_world).
Proof.
  split; [reflexivity |].
  apply (proj2 (orders_aborted_iff_no_response
                  (mkTracer "golang_app") logstash_logger
                  (Tracing.mkEnv 7 (None, None) 0) initial_world)).
  reflexivity.
Defined.

(** ** Headers and log records of [/orders] *)

(** X3. Every [/orders] response of the three programs carries the header
    [Content-Type: application/json] and no other header set by the
    handler, for 200 and 500 alike, and its body ends with the newline
    that [Encode] appends to the document. *)
Theorem orders_content_type_json :
  forall (draw : Z) (tr : Tracer) (lg : Logger) (res : Tracing.Response)
         (err : option string) (lat : Duration) (w : World),
    let json : gmap string string :=
      {[ "Content-Type" := "application/json" ]} in
    (exists st doc,
       (serve (ExposingHttpRequestMetric.orders draw) w).1
       = Responded st json (doc +:+ Json.newline)) /\
    (exists st doc,
       (serve (GaugeJob.orders draw) w).1
       = Responded st json (doc +:+ Json.newline)) /\
    (exists st doc,
       (serve (Tracing.orders (Some tr) lg
                 (Tracing.mkEnv draw (Some res, err) lat)) w).1
       = Responded st json (doc +:+ Json.newline)).
Proof.
  intros draw tr lg res err lat w json. subst json.
  split; [| split].
  - go_run. destruct (Z.rem _ _ =? 0); go_run;
      eexists; eexists; reflexivity.
  - go_run. destruct (Z.rem _ _ =? 0); go_run;
      eexists; eexists; reflexivity.
  - go_run. destruct err; go_run; destruct (Z.rem _ _ =? 0); go_run;
      eexists; eexists; reflexivity.
Qed.

Definition is_error_record (e : Event) : bool :=
  match e with
  | EvLog _ LevelError _ _ => true
  | _ => false
  end.

Fixpoint count_events (p : Event -> bool) (evs : list Event) : nat :=
  match evs with
  | [] => 0%nat
  | e :: rest => ((if p e then 1 else 0) + count_events p rest)%nat
  end.

(** X4. The error-level records of a responded [/orders] request: one when
    the inventory call reported an error, and one more when the identifier
    is odd. A 200 after a clean inventory call logs no error; every 500
    logs one. *)
Theorem orders_error_records :
  forall (tr : Tracer) (lg : Logger) (draw : Z) (res : Tracing.Response)
         (err : option string) (lat : Duration) (w : World),
    exists new,
      events (serve (Tracing.orders (Some tr) lg
                       (Tracing.mkEnv draw (Some res, err) lat)) w).2
      = events w ++ new /\
      count_events is_error_record new
      = ((if err is Some _ then 1 else 0)
         + (if Z.even (order_id draw) then 0 else 1))%nat.
Proof.
  intros tr lg draw res err lat w.
  unfold order_id. rewrite <- rem2_even.
  destruct err; destruct (Z.rem (Intn_result draw 1000) 2 =? 0) eqn:E;
    eexists; (split; [flatten_events; rewrite ?E; flatten_events;
                      reflexivity | reflexivity]).
Qed.

(** ** The encoded document *)

(** X5. What the field tags make of a response value: [data] with the
    identifier, and an [error] object that is always present, is empty
    for the zero error, and otherwise holds [message] and [description],
    each only when it is not the empty string. *)
Theorem response_document_shape :
  forall (id : Z) (e : Error),
    Json.marshal (Json.reflect_ResponseData
                    {| resp_Data := {| OrderID := id |}; resp_Error := e |})
    = Json.JObj
        [("data", Json.JObj [("order_id", Json.JNum id)]);
         ("error",
          Json.JObj
            ((if bool_decide (Message e = "") then []
              else [("message", Json.JStr (Message e))]) ++
             (if bool_decide (Description e = "") then []
              else [("description", Json.JStr (Description e))])))].
Proof.
  intros id [m d]. cbn.
  destruct (bool_decide (m = "")), (bool_decide (d = "")); reflexivity.
Qed.

(** ** [/ping] *)

Definition ping_labels : list string := ["GET"; "/ping"; "200"].
Definition internal_labels : list string :=
  ["GET"; "/internal/orders"; "200"].

(** X7. [/ping] answers 200 with the body [pong] in all three programs. Only
    the full variant counts the request, in the child
    [GET, /ping, 200] and in no other; the two earlier programs leave
    every counter as it was. *)
Theorem ping_pong :
  forall (w : World) (labels : list string),
    (serve ExposingHttpRequestMetric.ping w).1 = Responded 200 ∅ "pong" /\
    (serve GaugeJob.ping w).1 = Responded 200 ∅ "pong" /\
    (serve Tracing.ping w).1 = Responded 200 ∅ "pong" /\
    counter_value (serve ExposingHttpRequestMetric.ping w).2 labels
    = counter_value w labels /\
    counter_value (serve GaugeJob.ping w).2 labels
    = counter_value w labels /\
    counter_value (serve Tracing.ping w).2 labels
    = (if decide (ping_labels = labels) then S (counter_value w labels)
       else counter_value w labels).
Proof.
  intros w labels. repeat split; try (go_run; reflexivity).
  unfold counter_value. go_run. apply child_incremented_value.
Qed.

(** ** A sequence of requests *)

(** The requests that reach the handlers written in the full variant. *)
Inductive Request :=
| GetPing
| PostOrders (env : Tracing.Env)
| GetInternalOrders.

(** The handler registered for the path of the request. *)
Definition handler_of (tracer : option Tracer) (logger : Logger)
    (r : Request) : Go unit :=
  match r with
  | GetPing => Tracing.ping
  | PostOrders env => Tracing.orders tracer logger env
  | GetInternalOrders => Tracing.internal_orders tracer logger
  end.

(** Requests served one after the other. *)
Fixpoint serve_all (tracer : option Tracer) (logger : Logger)
    (rs : list Request) (w : World) : list Served * World :=
  match rs with
  | [] => ([], w)
  | r :: rest =>
      let '(s, w1) := serve (handler_of tracer logger r) w in
      let '(ss, w2) := serve_all tracer logger rest w1 in
      (s :: ss, w2)
  end.

Definition responded (s : Served) : bool :=
  match s with
  | Responded _ _ _ => true
  | _ => false
  end.

Definition count_responded (ss : list Served) : nat :=
  length (List.filter responded ss).

(** The label values under which a request is counted, if it gets an
    answer. *)
Definition counted_as (r : Request) : option (list string) :=
  match r with
  | GetPing => Some ping_labels
  | PostOrders env =>
      match (Tracing.inventory_reply env).1 with
      | Some _ =>
          Some (if Z.even (order_id (Tracing.draw env))
                then success_labels else failure_labels)
      | None => None
      end
  | GetInternalOrders => Some internal_labels
  end.

Definition times_counted (labels : list string) (rs : list Request) : nat :=
  length (List.filter (fun r => bool_decide (counted_as r = Some labels)) rs).

(** What one request does to the instruments. *)
Lemma request_effect (tr : Tracer) (lg : Logger) (r : Request) (w : World) :
  let w' := (serve (handler_of (Some tr) lg r) w).2 in
  (forall labels,
     counter_value w' labels
     = (if bool_decide (counted_as r = Some labels)
        then S (counter_value w labels) else counter_value w labels)) /\
  responded (serve (handler_of (Some tr) lg r) w).1
  = bool_decide (is_Some (counted_as r)) /\
  (exists obs, summary w' = summary w ++ obs /\
               histogram w' = histogram w ++ obs /\
               length obs = (if r is PostOrders _
                             then (if counted_as r is Some _ then 1 else 0)
                             else 0)%nat) /\
  gauges w' = gauges w.
Proof.
  destruct r as [| [d [[res |] err] lat] |]; cbn [handler_of counted_as].
  - split; [| split; [| split]].
    + intros labels. unfold counter_value. go_run.
      rewrite child_incremented_value.
      destruct (decide (ping_labels = labels)) as [<- | Hne].
      * rewrite bool_decide_eq_true_2 by reflexivity.
        rewrite decide_True by reflexivity. reflexivity.
      * rewrite bool_decide_eq_false_2 by congruence.
        rewrite decide_False by exact Hne. reflexivity.
    + go_run. reflexivity.
    + exists []. go_run. rewrite !app_nil_r. repeat split.
    + go_run. reflexivity.
  - cbn [Tracing.inventory_reply Tracing.draw fst].
    split; [| split; [| split]].
    + intros labels. cbv zeta. rewrite tracing_orders_counters.
      destruct (Z.even (order_id d));
        destruct (decide (_ = labels)) as [<- | Hne].
      all: try (rewrite bool_decide_eq_true_2 by reflexivity; reflexivity).
      all: rewrite bool_decide_eq_false_2 by congruence; reflexivity.
    + go_run. destruct err; go_run; destruct (Z.rem _ _ =? 0); go_run;
        reflexivity.
    + go_run. destruct err; go_run; destruct (Z.rem _ _ =? 0); go_run;
        eexists [_]; repeat split.
    + go_run. destruct err; go_run; destruct (Z.rem _ _ =? 0); go_run;
        reflexivity.
  - cbn [Tracing.inventory_reply fst].
    split; [| split; [| split]].
    + intros labels.
      rewrite bool_decide_eq_false_2 by discriminate.
      unfold counter_value. destruct err; go_run; reflexivity.
    + destruct err; go_run; reflexivity.
    + exists []. destruct err; go_run; rewrite !app_nil_r; repeat split.
    + destruct err; go_run; reflexivity.
  - split; [| split; [| split]].
    + intros labels. unfold counter_value. go_run.
      rewrite child_incremented_value.
      destruct (decide (internal_labels = labels)) as [<- | Hne].
      * rewrite bool_decide_eq_true_2 by reflexivity.
        rewrite decide_True by reflexivity. reflexivity.
      * rewrite bool_decide_eq_false_2 by congruence.
        rewrite decide_False by exact Hne. reflexivity.
    + go_run. reflexivity.
    + exists []. go_run. rewrite !app_nil_r. repeat split.
    + go_run. reflexivity.
Qed.

Lemma serve_all_cons (tr : option Tracer) (lg : Logger) (r : Request)
    (rs : list Request) (w : World) :
  serve_all tr lg (r :: rs) w
  = ((serve (handler_of tr lg r) w).1
       :: (serve_all tr lg rs (serve (handler_of tr lg r) w).2).1,
     (serve_all tr lg rs (serve (handler_of tr lg r) w).2).2).
Proof.
  cbn [serve_all].
  destruct (serve (handler_of tr lg r) w) as [s w1]. cbn [fst snd].
  destruct (serve_all tr lg rs w1) as [ss w2]. reflexivity.
Qed.

(** X8. Over any sequence of requests to the three handlers, each counter
    child reads what it read before plus the number of answered requests
    counted under it: pings under [GET, /ping, 200], internal orders under
    [GET, /internal/orders, 200], orders under [POST, /orders, 200] or
    [.., 500] by the parity of their identifier. Aborted orders are
    counted nowhere, no child ever goes down, and a child that no request
    maps to does not move. *)
Theorem requests_counted_once :
  forall (tr : Tracer) (lg : Logger) (rs : list Request) (w : World)
         (labels : list string),
    counter_value (serve_all (Some tr) lg rs w).2 labels
    = (counter_value w labels + times_counted labels rs)%nat.
Proof.
  intros tr lg rs. induction rs as [| r rs IH]; intros w labels.
  - cbn. lia.
  - rewrite serve_all_cons. cbn [snd]. rewrite IH.
    destruct (request_effect tr lg r w) as (Hc & _).
    rewrite Hc. unfold times_counted. cbn [List.filter].
    destruct (bool_decide (counted_as r = Some labels)); cbn [length]; lia.
Qed.

(** X9. The four children together count exactly the responses sent: their
    sum grows by the number of requests that were answered, and one
    answer is given per request except for the aborted orders. *)
Theorem requests_total_is_responses :
  forall (tr : Tracer) (lg : Logger) (rs : list Request) (w : World),
    let r := serve_all (Some tr) lg rs w in
    let total (v : World) :=
      (counter_value v ping_labels + counter_value v success_labels
       + counter_value v failure_labels
       + counter_value v internal_labels)%nat in
    length r.1 = length rs /\
    total r.2 = (total w + count_responded r.1)%nat /\
    count_responded r.1
    = length (List.filter (fun q => bool_decide (is_Some (counted_as q))) rs).
Proof.
  intros tr lg rs. induction rs as [| q rs IH]; intros w r total.
  - subst r total. cbn. repeat split; lia.
  - subst r total. rewrite serve_all_cons. cbn [fst snd].
    destruct (IH (serve (handler_of (Some tr) lg q) w).2) as (Hl & Ht & Hr).
    cbv zeta in Ht.
    destruct (request_effect tr lg q w) as (Hc & Hresp & _).
    split; [cbn [length]; rewrite Hl; reflexivity |].
    unfold count_responded in *. cbn [List.filter].
    rewrite Hresp.
    split.
    + rewrite Ht, !Hc. clear.
      destruct q as [| [d [[res |] err] lat] |]; cbn [counted_as];
        cbn [Tracing.inventory_reply Tracing.draw fst];
        try destruct (Z.even (order_id d));
        unfold ping_labels, success_labels, failure_labels,
          internal_labels in *;
        repeat case_bool_decide; try congruence;
        try (exfalso;
             match goal with
             | H : ¬ is_Some (Some _) |- _ => apply H; eexists; reflexivity
             | H : is_Some None |- _ => destruct H; discriminate
             end);
        cbn [length]; lia.
    + destruct (bool_decide (is_Some (counted_as q))); cbn [length];
        rewrite Hr; reflexivity.
Qed.

(** X10. Summary and histogram are fed the same values in the same order: if
    they hold the same observations before a sequence of requests they
    hold the same observations after it, one more for each answered
    [/orders] request and none for any other request. No handler moves the
    gauge. *)
Theorem summary_and_histogram_in_step :
  forall (tr : Tracer) (lg : Logger) (rs : list Request) (w : World),
    let w' := (serve_all (Some tr) lg rs w).2 in
    (summary w = histogram w -> summary w' = histogram w') /\
    length (summary w')
    = (length (summary w)
       + length (List.filter
                   (fun q => if q is PostOrders _
                             then bool_decide (is_Some (counted_as q))
                             else false) rs))%nat /\
    gauges w' = gauges w.
Proof.
  intros tr lg rs. induction rs as [| q rs IH]; intros w w'.
  - subst w'. cbn. repeat split; [tauto | lia].
  - subst w'. rewrite serve_all_cons. cbn [snd].
    destruct (IH (serve (handler_of (Some tr) lg q) w).2) as (Hs & Hl & Hg).
    cbv zeta in Hs, Hl, Hg.
    destruct (request_effect tr lg q w) as (_ & _ & (obs & Ho1 & Ho2 & Hn) & Hq).
    split; [| split].
    + intros Heq. apply Hs. rewrite Ho1, Ho2, Heq. reflexivity.
    + rewrite Hl, Ho1, length_app, Hn. cbn [List.filter].
      destruct q as [| env |]; cbn [length]; try lia.
      destruct (counted_as (PostOrders env)); cbn; lia.
    + rewrite Hg. exact Hq.
Qed.

Lemma summary_and_histogram_in_step_witness :
  summary initial_world = histogram initial_world /\
  summary (serve_all (Some (mkTracer "golang_app")) logstash_logger
             [GetPing;
              PostOrders (Tracing.mkEnv 7 (Some (Tracing.mkResponse 200), None) 0);
              PostOrders (Tracing.mkEnv 8 (None, Some "refused") 0)]
             initial_world).2
  = histogram (serve_all (Some (mkTracer "golang_app")) logstash_logger
             [GetPing;
              PostOrders (Tracing.mkEnv 7 (Some (Tracing.mkResponse 200), None) 0);
              PostOrders (Tracing.mkEnv 8 (None, Some "refused") 0)]
             initial_world).2.
Proof.
  split; [reflexivity |].
  apply (proj1 (summary_and_histogram_in_step
                  (mkTracer "golang_app") logstash_logger
                  [GetPing;
                   PostOrders (Tracing.mkEnv 7
                                 (Some (Tracing.mkResponse 200), None) 0);
                   PostOrders (Tracing.mkEnv 8 (None, Some "refused") 0)]
                  initial_world)).
  reflexivity.
Defined.

(** * Further properties of the simulation job *)

Definition job_labels : list string := ["ID"; "JAK"].

Definition total (l : list Z) : Z := foldr Z.add 0 l.

Lemma gauge_child_created_value (m : gmap (list string) Z)
    (k l : list string) :
  default 0
    (match m !! k with Some _ => m | None => <[k := 0]> m end !! l)
  = default 0 (m !! l).
Proof.
  destruct (m !! k) eqn:Hk; [reflexivity |].
  destruct (decide (k = l)) as [<- | Hne].
  - rewrite lookup_insert_eq, Hk. reflexivity.
  - rewrite lookup_insert_ne by exact Hne. reflexivity.
Qed.

Lemma gauge_child_added_value (m : gmap (list string) Z)
    (k l : list string) (v : Z) :
  let m' := match m !! k with Some _ => m | None => <[k := 0]> m end in
  default 0 (<[k := default 0 (m' !! k) + v]> m' !! l)
  = if decide (k = l) then default 0 (m !! l) + v else default 0 (m !! l).
Proof.
  intros m'. destruct (decide (k = l)) as [<- | Hne].
  - rewrite lookup_insert_eq. cbn. f_equal. apply gauge_child_created_value.
  - rewrite lookup_insert_ne by exact Hne. apply gauge_child_created_value.
Qed.

Section JobAccounting.

(** The two versions of the goroutine again, this time with what a step
    does to the gauge: a step that sees the cancellation leaves every
    gauge child alone; any other step adds its sample to the child
    [ID, JAK] only and returns one tick later. *)
Variable tick : Duration.
Variable sample : Z -> Z.
Variable step : option Z -> Z -> Go bool.
Variable loop : option Z -> list Z -> Go bool.

Hypothesis loop_nil : forall c w, loop c [] w = (Returned true, w).
Hypothesis loop_cons : forall c d ds w,
  loop c (d :: ds) w
  = match step c d w with
    | (Returned true, w') => loop c ds w'
    | (Returned false, w') => (Returned false, w')
    | (Panicked m, w') => (Panicked m, w')
    | (Exited x, w') => (Exited x, w')
    end.

Hypothesis step_stops : forall c d w,
  ctx_Done c (now w) = true ->
  exists w',
    step c d w = (Returned false, w') /\ now w' = now w /\
    forall l, gauge_value w' l = gauge_value w l.

Hypothesis step_updates : forall c d w,
  ctx_Done c (now w) = false ->
  exists w',
    step c d w = (Returned true, w') /\ now w' = now w + tick /\
    forall l, gauge_value w' l
              = if decide (job_labels = l) then gauge_value w l + sample d
                else gauge_value w l.

(** Never cancelled, the loop uses up every draw and is still running. *)
Lemma loop_without_cancellation (draws : list Z) :
  forall w, exists w',
    loop None draws w = (Returned true, w') /\
    now w' = now w + Z.of_nat (length draws) * tick /\
    forall l, gauge_value w' l
              = if decide (job_labels = l)
                then gauge_value w l + total (sample <$> draws)
                else gauge_value w l.
Proof.
  induction draws as [| d ds IH]; intros w.
  - exists w. rewrite loop_nil. cbn. repeat split; [lia |].
    intros l. destruct (decide (job_labels = l)); lia.
  - rewrite loop_cons.
    destruct (step_updates None d w eq_refl) as (w1 & -> & Hn & Hg).
    destruct (IH w1) as (w' & Hrun & Hn' & Hg').
    exists w'. split; [exact Hrun |]. split.
    + rewrite Hn', Hn. cbn [length]. lia.
    + intros l. rewrite Hg', Hg. cbn [fmap list_fmap total foldr].
      destruct (decide (job_labels = l)); [fold (total (sample <$> ds)) |];
        lia.
Qed.

(** Cancelled at [c], the loop makes one update at each loop head before
    [c], as far as the draws reach. *)
Lemma loop_accounting (c : Z) (draws : list Z) :
  forall w, exists (n : nat) (o : Outcome bool) (w' : World),
    loop (Some c) draws w = (o, w') /\
    (n <= length draws)%nat /\
    now w' = now w + Z.of_nat n * tick /\
    (forall l, gauge_value w' l
               = if decide (job_labels = l)
                 then gauge_value w l + total (sample <$> take n draws)
                 else gauge_value w l) /\
    (n <> 0%nat -> now w + (Z.of_nat n - 1) * tick < c) /\
    ((o = Returned false /\ c <= now w') \/
     (o = Returned true /\ n = length draws)).
Proof.
  induction draws as [| d ds IH]; intros w.
  - exists 0%nat, (Returned true), w. rewrite loop_nil. cbn.
    repeat split; try lia.
    + intros l. destruct (decide (job_labels = l)); lia.
    + right. split; reflexivity.
  - rewrite loop_cons.
    destruct (ctx_Done (Some c) (now w)) eqn:E.
    + destruct (step_stops (Some c) d w E) as (w1 & -> & Hn & Hg).
      exists 0%nat, (Returned false), w1. cbn.
      repeat split; try lia.
      * intros l. rewrite Hg. destruct (decide (job_labels = l)); lia.
      * left. split; [reflexivity |]. apply Z.leb_le in E. lia.
    + destruct (step_updates (Some c) d w E) as (w1 & -> & Hn & Hg).
      destruct (IH w1) as (n & o & w' & Hrun & Hlen & Hn' & Hg' & Hb & Ho).
      exists (S n), o, w'. split; [exact Hrun |].
      apply Z.leb_gt in E.
      split; [cbn [length]; lia |].
      split; [lia |]. split; [| split].
      * intros l. rewrite Hg', Hg. cbn [take fmap list_fmap total foldr].
        destruct (decide (job_labels = l));
          [fold (total (sample <$> take n ds)) |]; lia.
      * intros _. destruct n as [| n']; [lia |].
        specialize (Hb ltac:(discriminate)). lia.
      * destruct Ho as [[-> Hc] | [-> ->]]; [left | right]; split;
          try reflexivity; lia.
Qed.

End JobAccounting.

Lemma total_bounds (sample : Z -> Z) (bound : Z) (l : list Z) :
  (forall d, 0 <= sample d < bound) ->
  0 <= total (sample <$> l) <= (bound - 1) * Z.of_nat (length l).
Proof.
  intros Hs. induction l as [| d l IH].
  - cbn. lia.
  - cbn [fmap list_fmap total foldr length].
    fold (total (sample <$> l)). specialize (Hs d). lia.
Qed.

Lemma tracing_step_stops (c : option Z) (d : Z) (w : World) :
  ctx_Done c (now w) = true ->
  exists w',
    Tracing.job_step c d w = (Returned false, w') /\ now w' = now w /\
    forall l, gauge_value w' l = gauge_value w l.
Proof.
  destruct w as [n cs gs sm hs wr sl tr]. cbn [now]. intros E.
  job_head. rewrite E. eexists.
  split; [go_run; reflexivity |]. split; [reflexivity |].
  intros l. reflexivity.
Qed.

Lemma tracing_step_updates (c : option Z) (d : Z) (w : World) :
  ctx_Done c (now w) = false ->
  exists w',
    Tracing.job_step c d w = (Returned true, w') /\
    now w' = now w + 1 * Second /\
    forall l, gauge_value w' l
              = if decide (job_labels = l)
                then gauge_value w l + Intn_result d 100
                else gauge_value w l.
Proof.
  destruct w as [n cs gs sm hs wr sl tr]. cbn [now]. intros E.
  job_head. rewrite E. eexists.
  split; [go_run; reflexivity |].
  split; [cbn [now]; unfold Second, Millisecond; lia |].
  intros l. unfold gauge_value. cbn [gauges].
  apply gauge_child_added_value.
Qed.

Lemma gaugejob_step_stops (c : option Z) (d : Z) (w : World) :
  ctx_Done c (now w) = true ->
  exists w',
    GaugeJob.job_step c d w = (Returned false, w') /\ now w' = now w /\
    forall l, gauge_value w' l = gauge_value w l.
Proof.
  destruct w as [n cs gs sm hs wr sl tr]. cbn [now]. intros E.
  job_head. rewrite E. eexists.
  split; [go_run; reflexivity |]. split; [reflexivity |].
  intros l. reflexivity.
Qed.

Lemma gaugejob_step_updates (c : option Z) (d : Z) (w : World) :
  ctx_Done c (now w) = false ->
  exists w',
    GaugeJob.job_step c d w = (Returned true, w') /\
    now w' = now w + 300 * Millisecond /\
    forall l, gauge_value w' l
              = if decide (job_labels = l)
                then gauge_value w l + Intn_result d 1000
                else gauge_value w l.
Proof.
  destruct w as [n cs gs sm hs wr sl tr]. cbn [now]. intros E.
  job_head. rewrite E. eexists.
  split; [go_run; reflexivity |].
  split; [cbn [now]; unfold Millisecond; lia |].
  intros l. unfold gauge_value. cbn [gauges].
  apply gauge_child_added_value.
Qed.

(** X11. As long as it is not cancelled the job does not return: after any
    number of iterations it is still running, one tick has passed per
    iteration, and the gauge child [ID, JAK] has grown by the sum of the
    samples drawn, each between 0 and 99 in the full variant (1 s ticks)
    and between 0 and 999 in the gauge variant (300 ms ticks). The gauge
    is only ever added to, never set or lowered, and no other child is
    touched. *)
Theorem job_runs_until_cancelled :
  forall (draws : list Z) (w : World),
    let n := Z.of_nat (length draws) in
    (exists w',
       Tracing.job None draws w = (Returned true, w') /\
       now w' = now w + n * (1 * Second) /\
       gauge_value w job_labels <= gauge_value w' job_labels
         <= gauge_value w job_labels + 99 * n /\
       forall l, gauge_value w' l
                 = if decide (job_labels = l)
                   then gauge_value w l
                        + total ((fun d => Intn_result d 100) <$> draws)
                   else gauge_value w l) /\
    (exists w',
       GaugeJob.job None draws w = (Returned true, w') /\
       now w' = now w + n * (300 * Millisecond) /\
       gauge_value w job_labels <= gauge_value w' job_labels
         <= gauge_value w job_labels + 999 * n /\
       forall l, gauge_value w' l
                 = if decide (job_labels = l)
                   then gauge_value w l
                        + total ((fun d => Intn_result d 1000) <$> draws)
                   else gauge_value w l).
Proof.
  intros draws w n. subst n. split.
  - destruct (loop_without_cancellation (1 * Second)
                (fun d => Intn_result d 100) Tracing.job_step Tracing.job
                (fun _ _ => eq_refl) tracing_job_cons
                tracing_step_updates draws w) as (w' & Hrun & Hn & Hg).
    exists w'. repeat split; try assumption.
    all: rewrite Hg, decide_True by reflexivity.
    all: pose proof (total_bounds (fun d => Intn_result d 100) 100 draws
                       (fun d => Intn_result_range d 100 eq_refl)); lia.
  - destruct (loop_without_cancellation (300 * Millisecond)
                (fun d => Intn_result d 1000) GaugeJob.job_step GaugeJob.job
                (fun _ _ => eq_refl) gauge_job_cons
                gaugejob_step_updates draws w) as (w' & Hrun & Hn & Hg).
    exists w'. repeat split; try assumption.
    all: rewrite Hg, decide_True by reflexivity.
    all: pose proof (total_bounds (fun d => Intn_result d 1000) 1000 draws
                       (fun d => Intn_result_range d 1000 eq_refl)); lia.
Qed.

(** X12. Cancelled at [c], the job of the full variant makes exactly one gauge
    update at each loop head that comes before [c]: after [n] updates it
    has added the first [n] samples, [n] ticks have passed, the last
    update happened before [c], and either the job has returned at a loop
    head at or after [c] or the draws have run out. A job cancelled before
    its first loop head changes nothing. The same holds in the gauge
    variant. *)
Theorem job_updates_once_per_tick_before_cancel :
  forall (c : Z) (draws : list Z) (w : World),
    (exists (n : nat) (o : Outcome bool) (w' : World),
       Tracing.job (Some c) draws w = (o, w') /\
       (n <= length draws)%nat /\
       now w' = now w + Z.of_nat n * (1 * Second) /\
       (forall l, gauge_value w' l
                  = if decide (job_labels = l)
                    then gauge_value w l
                         + total ((fun d => Intn_result d 100)
                                    <$> take n draws)
                    else gauge_value w l) /\
       (n = 0%nat \/ now w + (Z.of_nat n - 1) * (1 * Second) < c) /\
       ((o = Returned false /\ c <= now w') \/
        (o = Returned true /\ n = length draws))) /\
    (exists (n : nat) (o : Outcome bool) (w' : World),
       GaugeJob.job (Some c) draws w = (o, w') /\
       (n <= length draws)%nat /\
       now w' = now w + Z.of_nat n * (300 * Millisecond) /\
       (forall l, gauge_value w' l
                  = if decide (job_labels = l)
                    then gauge_value w l
                         + total ((fun d => Intn_result d 1000)
                                    <$> take n draws)
                    else gauge_value w l) /\
       (n = 0%nat \/ now w + (Z.of_nat n - 1) * (300 * Millisecond) < c) /\
       ((o = Returned false /\ c <= now w') \/
        (o = Returned true /\ n = length draws))).
Proof.
  intros c draws w. split.
  - destruct (loop_accounting (1 * Second) (fun d => Intn_result d 100)
                Tracing.job_step Tracing.job (fun _ _ => eq_refl)
                tracing_job_cons tracing_step_stops tracing_step_updates
                c draws w) as (n & o & w' & Hrun & Hlen & Hn & Hg & Hb & Ho).
    exists n, o, w'. repeat split; try assumption.
    destruct n; [left; reflexivity | right; apply Hb; discriminate].
  - destruct (loop_accounting (300 * Millisecond)
                (fun d => Intn_result d 1000)
                GaugeJob.job_step GaugeJob.job (fun _ _ => eq_refl)
                gauge_job_cons gaugejob_step_stops gaugejob_step_updates
                c draws w) as (n & o & w' & Hrun & Hlen & Hn & Hg & Hb & Ho).
    exists n, o, w'. repeat split; try assumption.
    destruct n; [left; reflexivity | right; apply Hb; discriminate].
Qed.

(** * Further properties of the response body and of start-up *)

(** X6. The body of every [/orders] response decodes to the value the handler
    encoded: the generated identifier, and an error that is the zero error
    for an even identifier and the handler's fixed failure for an odd one
    (message and description [error] in the two earlier programs, the
    message alone in the full variant). *)
Theorem orders_body_decodes_to_response :
  forall (draw : Z) (tr : Tracer) (lg : Logger) (res : Tracing.Response)
         (err : option string) (lat : Duration) (w : World),
    let id := order_id draw in
    served_body (serve (ExposingHttpRequestMetric.orders draw) w).1
      ≫= Json.Unmarshal
    = Some {| resp_Data := {| OrderID := id |};
              resp_Error := if Z.even id then zero_Error
                            else stage4_failure |} /\
    served_body (serve (GaugeJob.orders draw) w).1 ≫= Json.Unmarshal
    = Some {| resp_Data := {| OrderID := id |};
              resp_Error := if Z.even id then zero_Error
                            else stage4_failure |} /\
    served_body
      (serve (Tracing.orders (Some tr) lg
                (Tracing.mkEnv draw (Some res, err) lat)) w).1
      ≫= Json.Unmarshal
    = Some {| resp_Data := {| OrderID := id |};
              resp_Error := if Z.even id then zero_Error
                            else tracing_failure |}.
Proof.
  intros draw tr lg res err lat w id. subst id.
  rewrite stage4_orders_decoded, gaugejob_orders_decoded,
    tracing_orders_decoded.
  repeat split.
Qed.

(** X13. The two ways start-up fails. A failed tracer is reported through
    the package-level logger, the nil tracer is installed as the global
    one, and [main] panics before it dials Logstash: the process ends with
    status 2. A failed dial is reported with [log.Fatalf] and ends the
    process with status 1 through [os.Exit], which skips the deferred
    [closer.Close()]: the tracer that was built is never closed. Both
    reports are made before [slog.SetDefault], through whatever default
    logger the process has at that point: on a fresh process, standard
    error. *)
Theorem startup_failure_modes :
  forall (t : Tracer) (c : Closer) (e : string) (derr lerr : option string)
         (drain : Duration) (w : World),
    let failed_tracer :=
      Tracing.mkStartup (Tracing.TracerFailed e) derr lerr drain in
    let failed_dial :=
      Tracing.mkStartup (Tracing.TracerReady t c) (Some e) lerr drain in
    (Tracing.run failed_tracer w).1 = 2 /\
    events (Tracing.run failed_tracer w).2
    = events w ++
      [EvLog (logger_sink (slog_default w)) LevelError
         "failed to start tracer" (logger_attrs (slog_default w));
       EvSetGlobalTracer false] /\
    (Tracing.run failed_dial w).1 = 1 /\
    events (Tracing.run failed_dial w).2
    = events w ++
      [EvSetGlobalTracer true;
       EvDial "tcp" "localhost:5000";
       EvLog (logger_sink (slog_default w)) LevelInfo
         ("could not connect to Logstash: " +:+ e)
         (logger_attrs (slog_default w))] /\
    events (Tracing.run failed_tracer initial_world).2
    = [EvLog Stderr LevelError "failed to start tracer" [];
       EvSetGlobalTracer false] /\
    events (Tracing.run failed_dial initial_world).2
    = [EvSetGlobalTracer true;
       EvDial "tcp" "localhost:5000";
       EvLog Stderr LevelInfo ("could not connect to Logstash: " +:+ e) []].
Proof.
  intros t c e derr lerr drain w failed_tracer failed_dial.
  subst failed_tracer failed_dial.
  repeat split; try (go_run; reflexivity); flatten_events; reflexivity.
Qed.

(** X14. Once [main] has installed its default logger, the error of a failed
    inventory call is written to Logstash at error level without any
    attribute: the record goes through the package-level logger, which was
    installed before [environment=dev] was attached to the logger the
    handlers use for their own records. *)
Theorem inventory_error_record_has_no_attributes :
  forall (tr : Tracer) (lg : Logger) (draw : Z)
         (res : option Tracing.Response) (e : string) (lat : Duration)
         (t : Tracer) (c : Closer) (lerr : option string)
         (drain : Duration) (w0 : World),
    let w := (Tracing.main
                (Tracing.mkStartup (Tracing.TracerReady t c) None lerr drain)
                w0).2 in
    slog_default w = logstash_logger /\
    count_events
      (fun ev => bool_decide
                   (ev = EvLog Logstash LevelError
                           "failed to call inventory service" []))
      (drop (length (events w))
         (events (serve (Tracing.orders (Some tr) lg
                           (Tracing.mkEnv draw (res, Some e) lat)) w).2))
    = 1%nat.
Proof.
  intros tr lg draw res e lat t c lerr drain w0 w.
  assert (slog_default w = logstash_logger) as Hd
    by (subst w; go_run;
        destruct (Tracing.deadline_met drain (5 * Second));
        [destruct lerr |]; go_run; reflexivity).
  split; [exact Hd |].
  assert (forall new, drop (length (events w)) (events w ++ new) = new)
    as Hdrop by (intros new; apply drop_app_length).
  generalize dependent w. intros w Hd Hdrop.
  destruct w as [n cs gs sm hs wr sl trc]. cbn [slog_default] in Hd.
  subst sl.
  destruct res as [res |].
  - destruct (Z.rem (Intn_result draw 1000) 2 =? 0) eqn:E.
    all: match goal with
         | |- count_events _ (drop _ ?evs) = _ =>
             assert (exists new, evs = events
                       {| now := n; counters := cs; gauges := gs;
                          summary := sm; histogram := hs; writer := wr;
                          slog_default := logstash_logger;
                          trace := trc |} ++ new
                     /\ count_events
                          (fun ev => bool_decide
                             (ev = EvLog Logstash LevelError
                                     "failed to call inventory service" []))
                          new = 1%nat) as (new & -> & Hc)
         end.
    1, 3: eexists; (split; [flatten_events; rewrite ?E; flatten_events;
                            reflexivity |]).
    1, 2: destruct lg as [[|] attrs]; reflexivity.
    all: rewrite Hdrop; exact Hc.
  - match goal with
    | |- count_events _ (drop _ ?evs) = _ =>
        assert (exists new, evs = events
                  {| now := n; counters := cs; gauges := gs;
                     summary := sm; histogram := hs; writer := wr;
                     slog_default := logstash_logger;
                     trace := trc |} ++ new
                /\ count_events
                     (fun ev => bool_decide
                        (ev = EvLog Logstash LevelError
                                "failed to call inventory service" []))
                     new = 1%nat) as (new & -> & Hc)
    end.
    { eexists. split; [flatten_events; reflexivity |].
      destruct lg as [[|] attrs]; reflexivity. }
    rewrite Hdrop. exact Hc.
Qed.
